(** * Session orchestration of the HELIN dashboard

    A shallow embedding of the three API routes of the dashboard
    ([api/start/route.ts], [api/status/route.ts], [api/feedback/route.ts])
    and of the start handler of the page ([app/page.tsx]), followed by the
    properties of the session life cycle that hold of them.

    Conventions of the embedding:
    - a JavaScript value is a [json] value or [undefined] ([jsval]);
    - a string value is a sequence of UTF-16 code units ([js_string]);
    - the text of a file is represented by what [JSON.parse] makes of it:
      the value it parses to, or the message of the [SyntaxError] it raises;
    - module-level variables of [route.ts], the files of the runtime
      directory and the log of effects on the outside world form the
      [world], threaded through a state-and-exception monad;
    - the events of a child process (data on its pipes, exit, spawn error)
      are inputs: the caller of a handler says which event fires. *)

From stdpp Require Import gmap strings list fin_maps pretty.
From Stdlib Require Import QArith Qcanon.

Set Warnings "-register-all".

Open Scope string_scope.

(** ** JavaScript values *)

Module JS.

(** A string value is a sequence of UTF-16 code units, the numbers below
    65536. *)
Definition code_unit : Type := N.

Definition js_string : Type := list code_unit.

(** The strings the routes make themselves (messages, names of
    properties, what a pipe delivers) are written as [string]s, which hold
    the code units below 256; [units] reads such a string as a string
    value, code unit by code unit. *)
Definition units (s : string) : js_string :=
  Ascii.N_of_ascii <$> String.list_ascii_of_string s.

Coercion units : string >-> js_string.

(** Numbers are the rationals that finite doubles denote; [Qc] keeps them
    in lowest terms, so that [=] is numeric equality. *)
Inductive json : Type :=
  | JNull
  | JBool (b : bool)
  | JNum (n : Qc)
  | JStr (s : js_string)
  | JArr (items : list json)
  | JObj (props : gmap string json).

(** [None] is [undefined]. *)
Definition jsval : Type := option json.

Definition num (z : Z) : json := JNum (Q2Qc (inject_Z z)).

(** ToBoolean. *)
Definition truthy (v : json) : bool :=
  match v with
  | JNull => false
  | JBool b => b
  | JNum n => bool_decide (n ≠ Q2Qc 0)
  | JStr s => bool_decide (s ≠ [])
  | JArr _ | JObj _ => true
  end.

Definition truthy_val (v : jsval) : bool :=
  match v with
  | None => false
  | Some j => truthy j
  end.

(** [v === "lit"] for a string literal. *)
Definition is_string (v : jsval) (lit : string) : bool :=
  match v with
  | Some (JStr s) => bool_decide (s = units lit)
  | _ => false
  end.

(** [a || b] on strings. *)
Definition or_else (a b : string) : string :=
  if bool_decide (a = "") then b else a.

(** [s.slice(-n)]: the last [n] code units of [s]. *)
Definition slice_last (n : nat) (s : string) : string :=
  String.substring (String.length s - n) n s.

(** What a [throw] carries: the [message] of the [Error]. *)
Record error : Type := Error { message : string }.

Inductive outcome (A : Type) : Type :=
  | Ok (a : A)
  | Throw (e : error).
Arguments Ok {A} a.
Arguments Throw {A} e.

Definition type_error (of_what key : string) : error :=
  Error ("Cannot read properties of " ++ of_what
         ++ " (reading '" ++ key ++ "')").

(** [v.key], for the property names the routes read ([blocks],
    [trials_per_block], [num_blocks], [state], [error]): none of them is
    defined on a prototype, so only an object can have them. Reading a
    property of [undefined] or [null] throws a [TypeError]. *)
Definition get (v : jsval) (key : string) : outcome jsval :=
  match v with
  | None => Throw (type_error "undefined" key)
  | Some JNull => Throw (type_error "null" key)
  | Some (JObj props) => Ok (props !! key)
  | Some _ => Ok None
  end.

(** The own enumerable properties that [{...v}] copies. *)
Definition spread (v : json) : gmap string json :=
  match v with
  | JObj props => props
  | JArr items => list_to_map (imap (λ i x, (pretty i, x)) items)
  | JStr s =>
      list_to_map
        (imap (λ i c, (pretty i, JStr [c])) s)
  | JNull | JBool _ | JNum _ => ∅
  end.

(** Properties [k1: v1, ..., kn: vn] written after [base] in an object
    literal, as [JSON.stringify] sees the result: a later key replaces an
    earlier one, and a property whose value is [undefined] is left out. *)
Definition extend (base : gmap string json) (fields : list (string * jsval))
  : gmap string json :=
  foldl (λ props kv,
           match kv.2 with
           | Some j => <[kv.1 := j]> props
           | None => delete kv.1 props
           end) base fields.

(** The object literal [{k1: v1, ..., kn: vn}]. *)
Definition object (fields : list (string * jsval)) : json :=
  JObj (extend ∅ fields).

End JS.
Import JS.

(** ** The world of the server process *)

Module Sys.

(** An absolute path, as its segments below the root of the file system. *)
Definition path : Type := list string.

(** [path.resolve(base, "..", "..")]: two levels up, the root being its own
    parent. *)
Definition resolve_up2 (base : path) : path :=
  take (length base - 2) base.

(** [path.join(base, s1, ..., sn)] for plain segments. *)
Definition join (base : path) (segments : list string) : path :=
  (base ++ segments)%list.

(** The path as the string handed to a child process. *)
Definition path_string (p : path) : string :=
  foldr (λ segment acc, "/" ++ segment ++ acc) "" p.

(** The text of a file or of a request body, seen through [JSON.parse]:
    [Json j] is any text that parses to [j], and [Malformed msg] is any text
    that [JSON.parse] rejects, [msg] being the message of its
    [SyntaxError]. A document cut short by a killed writer is [Malformed]. *)
Inductive text : Type :=
  | Json (j : json)
  | Malformed (msg : string).

Definition JSON_stringify (j : json) : text := Json j.

Definition JSON_parse (t : text) : outcome json :=
  match t with
  | Json j => Ok j
  | Malformed msg => Throw (Error msg)
  end.

(** A [ChildProcess] handle: the child it stands for, and its [killed]
    flag. *)
Record ChildProcess : Type := Child { pid : nat; killed : bool }.

(** What the server does to the outside world, in order. *)
Inductive effect : Type :=
  | Mkdir (dir : path)
  | WriteFile (file : path) (data : text)
  | Unlink (file : path)
  | Spawn (child : nat) (command : string) (args : list string)
  | Kill (child : nat).

Record world : Type := World {
  files : gmap path text;
  stimulusProcess : option ChildProcess;
  feedbackProcess : option ChildProcess;
  processError : option string;
  processExited : bool;
  spawned : nat;
  effects : list effect
}.

(** Assignments to one component of the world. *)
Definition with_files (f : gmap path text) (w : world) : world :=
  let 'World _ stimulus feedback err exited count done := w in
  World f stimulus feedback err exited count done.

Definition with_stimulusProcess (h : option ChildProcess) (w : world) : world :=
  let 'World f _ feedback err exited count done := w in
  World f h feedback err exited count done.

Definition with_feedbackProcess (h : option ChildProcess) (w : world) : world :=
  let 'World f stimulus _ err exited count done := w in
  World f stimulus h err exited count done.

Definition with_processError (e : option string) (w : world) : world :=
  let 'World f stimulus feedback _ exited count done := w in
  World f stimulus feedback e exited count done.

Definition with_processExited (b : bool) (w : world) : world :=
  let 'World f stimulus feedback err _ count done := w in
  World f stimulus feedback err b count done.

Definition with_spawned (n : nat) (w : world) : world :=
  let 'World f stimulus feedback err exited _ done := w in
  World f stimulus feedback err exited n done.

Definition log (e : effect) (w : world) : world :=
  let 'World f stimulus feedback err exited count done := w in
  World f stimulus feedback err exited count (done ++ [e])%list.

(** *** Computations that change the world and may throw *)

Definition M (A : Type) : Type := world → outcome A * world.

#[global] Instance M_ret : MRet M := λ A a w, (Ok a, w).

#[global] Instance M_bind : MBind M := λ A B k m w,
  match m w with
  | (Ok a, w') => k a w'
  | (Throw e, w') => (Throw e, w')
  end.

Definition throw {A} (e : error) : M A := λ w, (Throw e, w).

(** [try { m } catch (e) { handler(e) }] *)
Definition try_catch {A} (m : M A) (handler : error → M A) : M A :=
  λ w, match m w with
       | (Ok a, w') => (Ok a, w')
       | (Throw e, w') => handler e w'
       end.

Definition lift {A} (o : outcome A) : M A := λ w, (o, w).

Definition read {A} (proj : world → A) : M A := λ w, (Ok (proj w), w).

Definition modify (f : world → world) : M unit := λ w, (Ok tt, f w).

(** A handler that cannot throw, run for its effect on the world. *)
Definition exec {A} (m : M A) (w : world) : world := (m w).2.

(** *** File system and child processes *)

Definition mkdirSync (dir : path) : M unit := modify (log (Mkdir dir)).

Definition writeFileSync (file : path) (data : text) : M unit :=
  modify (λ w, log (WriteFile file data) (with_files (<[file := data]> (files w)) w)).

Definition existsSync (file : path) : M bool :=
  read (λ w, match files w !! file with Some _ => true | None => false end).

Definition readFileSync (file : path) : M text :=
  λ w, match files w !! file with
       | Some data => (Ok data, w)
       | None =>
           (Throw (Error ("ENOENT: no such file or directory, open '"
                          ++ path_string file ++ "'")), w)
       end.

Definition unlinkSync (file : path) : M unit :=
  λ w, match files w !! file with
       | Some _ => (Ok tt, log (Unlink file) (with_files (delete file (files w)) w))
       | None =>
           (Throw (Error ("ENOENT: no such file or directory, unlink '"
                          ++ path_string file ++ "'")), w)
       end.

(** [spawn(command, args, ...)]: a fresh child, and its handle. *)
Definition spawn (command : string) (args : list string) : M ChildProcess :=
  λ w, let child := spawned w in
       (Ok (Child child false),
        log (Spawn child command args) (with_spawned (S child) w)).

(** [handle.kill()]: the signal is sent. *)
Definition kill (h : ChildProcess) : M unit := modify (log (Kill (pid h))).

(** [handle && !handle.killed] *)
Definition alive (h : option ChildProcess) : bool :=
  match h with
  | Some c => negb (killed c)
  | None => false
  end.

End Sys.
Import Sys.

(** ** HTTP responses *)

Module Http.

Record response : Type := Response { status : nat; body : json }.

(** [NextResponse.json(body, { status })]; the status is 200 when omitted. *)
Definition NextResponse_json (body : json) (status : nat) : response :=
  Response status body.

(** [res.ok] *)
Definition ok (r : response) : bool :=
  bool_decide (200 ≤ status r ≤ 299)%nat.

End Http.
Import Http.

(** ** [api/start/route.ts] *)

Module StartRoute.

(** What a child process can do while the server runs: write to a pipe, exit
    with a code ([None] is JavaScript's [null], for a child ended by a
    signal), or fail to start. *)
Inductive child_event : Type :=
  | StderrData (data : string)
  | StdoutData (data : string)
  | Exit (code : option Z)
  | SpawnError (msg : string).

Inductive settle_event : Type :=
  | Stimulus (e : child_event)
  | Feedback (e : child_event).

Section route.

(** [process.cwd()] *)
Variable cwd : path.

Definition getProjectRoot : path := resolve_up2 cwd.

Definition tmpDir : path := join getProjectRoot ["tmp"].
Definition dataDir : path := join getProjectRoot ["data"].
Definition configPath : path := join tmpDir ["config.json"].
Definition statusPath : path := join tmpDir ["status.json"].
Definition feedbackPath : path := join getProjectRoot ["tmp"; "feedback.json"].
Definition scriptPath : path :=
  join getProjectRoot ["src"; "backend"; "mi_stimulus.py"].
Definition feedbackScriptPath : path :=
  join getProjectRoot ["src"; "backend"; "feedback.py"].

(** The status document [POST] writes before it spawns anything. *)
Definition initial_status (total_trials total_blocks : jsval) : json :=
  object [("state", Some (JStr "practice"));
          ("phase", Some (JStr "none"));
          ("current_trial", Some (num 0));
          ("total_trials", total_trials);
          ("current_block", Some (num 0));
          ("total_blocks", total_blocks);
          ("bad_trials", Some (num 0));
          ("elapsed_seconds", Some (num 0));
          ("output_file", Some (JStr ""))].

(** The fallback status document of the exit handler. *)
Definition fallback_status : json :=
  object [("state", Some (JStr "aborted"));
          ("phase", Some (JStr "none"));
          ("current_trial", Some (num 0));
          ("total_trials", Some (num 0));
          ("current_block", Some (num 0));
          ("total_blocks", Some (num 0));
          ("bad_trials", Some (num 0));
          ("elapsed_seconds", Some (num 0));
          ("output_file", Some (JStr ""))].

(** [existing.state !== "aborted" && existing.state !== "completed"] *)
Definition not_terminal (doc : json) : M bool :=
  state ← lift (get (Some doc) "state");
  mret (negb (is_string state "aborted") && negb (is_string state "completed")).

(** [stimulusProcess.on("exit", (code) => ...)]; [stderrBuffer] is the
    variable of the enclosing call of [POST], at the time the event fires. *)
Definition stimulus_on_exit (stderrBuffer : string) (code : option Z) : M unit :=
  modify (with_processExited true);;
  match code with
  | Some c =>
      if bool_decide (c ≠ 0%Z) then
        modify (with_processError
                  (Some (or_else (slice_last 500 stderrBuffer)
                                 ("Process exited with code " +:+ pretty c))));;
        try_catch
          (present ← existsSync statusPath;
           existing ← (if present : bool
                       then data ← readFileSync statusPath; lift (JSON_parse data)
                       else mret JNull);
           overwrite ← (if negb (truthy existing) then mret true
                        else not_terminal existing);
           if overwrite : bool
           then writeFileSync statusPath (JSON_stringify fallback_status)
           else mret tt)
          (λ _, mret tt)
      else mret tt
  | None => mret tt
  end;;
  modify (with_stimulusProcess None).

(** [stimulusProcess.on("error", (err) => ...)] *)
Definition stimulus_on_error (msg : string) : M unit :=
  modify (with_processError
            (Some ("Failed to start Python: " +:+ msg
                   +:+ ". Is Python installed and on PATH?")));;
  modify (with_processExited true);;
  modify (with_stimulusProcess None).

(** [feedbackProcess.on("exit", ...)] and [feedbackProcess.on("error", ...)] *)
Definition feedback_on_exit : M unit := modify (with_feedbackProcess None).
Definition feedback_on_error (msg : string) : M unit :=
  modify (with_feedbackProcess None).

(** The events that fire while [POST] awaits its timer; each handler runs on
    its own stack, so nothing it throws reaches [POST]. The result is
    [stderrBuffer] when the timer ends. *)
Fixpoint settle_window (events : list settle_event) (stderrBuffer : string)
  : M string :=
  match events with
  | [] => mret stderrBuffer
  | Stimulus (StderrData data) :: rest =>
      settle_window rest (stderrBuffer +:+ data)
  | Stimulus (StdoutData _) :: rest => settle_window rest stderrBuffer
  | Stimulus (Exit code) :: rest =>
      modify (exec (stimulus_on_exit stderrBuffer code));;
      settle_window rest stderrBuffer
  | Stimulus (SpawnError msg) :: rest =>
      modify (exec (stimulus_on_error msg));;
      settle_window rest stderrBuffer
  | Feedback (StderrData _) :: rest | Feedback (StdoutData _) :: rest =>
      settle_window rest stderrBuffer
  | Feedback (Exit _) :: rest =>
      modify (exec feedback_on_exit);; settle_window rest stderrBuffer
  | Feedback (SpawnError msg) :: rest =>
      modify (exec (feedback_on_error msg));; settle_window rest stderrBuffer
  end.

Definition conflict : response :=
  NextResponse_json (object [("error", Some (JStr "A session is already running"))]) 409.

Definition success : response :=
  NextResponse_json (object [("success", Some (JBool true))]) 200.

Definition failure (reason : string) : response :=
  NextResponse_json (object [("error", Some (JStr reason))]) 500.

(** The part of [POST] inside its [try], up to the timer: parse the body,
    write the two documents, spawn the two children. *)
Definition POST_launch (request : text) : M unit :=
  config ← lift (JSON_parse request);
  mkdirSync tmpDir;;
  mkdirSync dataDir;;
  writeFileSync configPath (JSON_stringify config);;
  blocks ← lift (get (Some config) "blocks");
  total_trials ← lift (get blocks "trials_per_block");
  blocks' ← lift (get (Some config) "blocks");
  total_blocks ← lift (get blocks' "num_blocks");
  writeFileSync statusPath (JSON_stringify (initial_status total_trials total_blocks));;
  modify (with_processError None);;
  modify (with_processExited false);;
  stimulus ← spawn "python" [path_string scriptPath; "--config"; path_string configPath];
  modify (with_stimulusProcess (Some stimulus));;
  feedback ← spawn "python" [path_string feedbackScriptPath; "--config"; path_string configPath];
  modify (with_feedbackProcess (Some feedback)).

(** The end of [POST], when the timer of 1500 ms has fired. *)
Definition POST_report (stderrBuffer : string) : M response :=
  exited ← read processExited;
  if exited : bool then
    reason ← read processError;
    mret (failure (or_else (default "" reason)
                     (or_else (slice_last 500 stderrBuffer)
                              "Process exited immediately")))
  else mret success.

(** [export async function POST(request)]; [settle] lists the child events
    that fire during the wait. *)
Definition POST (request : text) (settle : list settle_event) : M response :=
  running ← read (λ w, alive (stimulusProcess w));
  if running : bool then mret conflict
  else
    try_catch
      (POST_launch request;;
       stderrBuffer ← settle_window settle "";
       POST_report stderrBuffer)
      (λ err, mret (failure (message err))).

(** [export async function DELETE()] *)
Definition DELETE : M response :=
  running ← read (λ w, alive (stimulusProcess w));
  (if running : bool then
     currentStatus ← try_catch
                       (data ← readFileSync statusPath; lift (JSON_parse data))
                       (λ _, mret JNull);
     stimulus ← read stimulusProcess;
     from_option kill (mret tt) stimulus;;
     modify (with_stimulusProcess None);;
     feedback ← read feedbackProcess;
     (if alive feedback then
        from_option kill (mret tt) feedback;;
        modify (with_feedbackProcess None)
      else mret tt);;
     try_catch
       (present ← existsSync feedbackPath;
        if present : bool then unlinkSync feedbackPath else mret tt)
       (λ _, mret tt);;
     mark ← (if truthy currentStatus then not_terminal currentStatus
                else mret false);
     if mark : bool then
       try_catch
         (writeFileSync statusPath
            (JSON_stringify
               (JObj (extend (spread currentStatus)
                        [("state", Some (JStr "aborted"));
                         ("phase", Some (JStr "none"))]))))
         (λ _, mret tt)
     else mret tt
   else mret tt);;
  mret success.

(** [export async function GET()]: the health of the processes. *)
Definition GET : M response :=
  w ← read id;
  mret (NextResponse_json
          (object [("running", Some (JBool (alive (stimulusProcess w))));
                   ("feedbackRunning", Some (JBool (alive (feedbackProcess w))));
                   ("error", Some (if processExited w
                                   then from_option (λ reason : string, JStr reason)
                                          JNull (processError w)
                                   else JNull))])
          200).

End route.

End StartRoute.

(** ** [api/status/route.ts] *)

Module StatusRoute.

Section route.

Variable cwd : path.

Definition getProjectRoot : path := resolve_up2 cwd.

Definition statusPath : path := join getProjectRoot ["tmp"; "status.json"].

(** The document returned when there is no [status.json]. *)
Definition idle_status : json :=
  object [("state", Some (JStr "idle"));
          ("phase", Some (JStr "none"));
          ("current_trial", Some (num 0));
          ("total_trials", Some (num 0));
          ("current_block", Some (num 0));
          ("total_blocks", Some (num 0));
          ("bad_trials", Some (num 0));
          ("elapsed_seconds", Some (num 0));
          ("output_file", Some (JStr ""))].

Definition read_failure : response :=
  NextResponse_json (object [("error", Some (JStr "Failed to read status"))]) 500.

(** [export async function GET()] *)
Definition GET : M response :=
  try_catch
    (present ← existsSync statusPath;
     if negb present then mret (NextResponse_json idle_status 200)
     else
       data ← readFileSync statusPath;
       document ← lift (JSON_parse data);
       mret (NextResponse_json document 200))
    (λ _, mret read_failure).

End route.

End StatusRoute.

(** ** [api/feedback/route.ts] *)

Module FeedbackRoute.

Section route.

Variable cwd : path.

Definition getProjectRoot : path := resolve_up2 cwd.

Definition feedbackPath : path := join getProjectRoot ["tmp"; "feedback.json"].

Definition DISCONNECTED_STATE : json :=
  object [("timestamp", Some (num 0));
          ("connected", Some (JBool false));
          ("stream_name", Some JNull);
          ("channels",
           Some (object
                   [("C3", Some (object [("mu_power", Some (num 0));
                                         ("beta_power", Some (num 0))]));
                    ("C4", Some (object [("mu_power", Some (num 0));
                                         ("beta_power", Some (num 0))]))]));
          ("laterality_index", Some (num 0));
          ("mu_suppression", Some (num 0));
          ("error", Some (JStr "Feedback not running"))].

Definition read_failure : response :=
  NextResponse_json (object [("error", Some (JStr "Failed to read feedback"))]) 500.

(** [export async function GET()] *)
Definition GET : M response :=
  try_catch
    (present ← existsSync feedbackPath;
     if negb present then mret (NextResponse_json DISCONNECTED_STATE 200)
     else
       data ← readFileSync feedbackPath;
       document ← lift (JSON_parse data);
       mret (NextResponse_json document 200))
    (λ _, mret read_failure).

End route.

End FeedbackRoute.

(** ** [lib/types.ts] and the start handler of [app/page.tsx] *)

Module Page.

Record Colors : Type := { left : js_string; right : js_string }.

Record Timing : Type := {
  baseline : Qc;
  cue : Qc;
  mi : Qc;
  rest_min : Qc;
  rest_max : Qc
}.

Record Blocks : Type := {
  num_blocks : Qc;
  trials_per_block : Qc;
  practice_trials : Qc;
  break_duration : Qc
}.

Record ExperimentConfig : Type := {
  participant_id : js_string;
  session_number : Qc;
  run_number : Qc;
  device_frequency : Qc;
  fullscreen : bool;
  screen : Qc;
  show_feedback : bool;
  notes : js_string;
  colors : Colors;
  timing : Timing;
  blocks : Blocks
}.

Inductive session_state : Type :=
  | idle | practice | running | on_break | completed | aborted.

Inductive session_phase : Type :=
  | phase_baseline | phase_cue | phase_mi | phase_rest | phase_break
  | phase_none.

Record SessionStatus : Type := {
  state : session_state;
  phase : session_phase;
  current_trial : Qc;
  total_trials : Qc;
  current_block : Qc;
  total_blocks : Qc;
  bad_trials : Qc;
  elapsed_seconds : Qc;
  output_file : js_string
}.

Definition IDLE_STATUS : SessionStatus :=
  {| state := idle; phase := phase_none;
     current_trial := Q2Qc 0; total_trials := Q2Qc 0;
     current_block := Q2Qc 0; total_blocks := Q2Qc 0;
     bad_trials := Q2Qc 0; elapsed_seconds := Q2Qc 0;
     output_file := "" |}.

Definition DEFAULT_CONFIG : ExperimentConfig :=
  {| participant_id := "";
     session_number := Q2Qc 1;
     run_number := Q2Qc 1;
     device_frequency := Q2Qc 250;
     fullscreen := false;
     screen := Q2Qc 0;
     show_feedback := false;
     notes := "";
     colors := {| left := "#4A9FD9"; right := "#E8B931" |};
     timing := {| baseline := Q2Qc 2; cue := Q2Qc 1; mi := Q2Qc 4;
                  rest_min := Q2Qc 2; rest_max := Q2Qc 3 |};
     blocks := {| num_blocks := Q2Qc 2; trials_per_block := Q2Qc 50;
                  practice_trials := Q2Qc 10; break_duration := Q2Qc 120 |} |}.

(** The value [JSON.stringify(config)] denotes. *)
Definition config_json (c : ExperimentConfig) : json :=
  object
    [("participant_id", Some (JStr (participant_id c)));
     ("session_number", Some (JNum (session_number c)));
     ("run_number", Some (JNum (run_number c)));
     ("device_frequency", Some (JNum (device_frequency c)));
     ("fullscreen", Some (JBool (fullscreen c)));
     ("screen", Some (JNum (screen c)));
     ("show_feedback", Some (JBool (show_feedback c)));
     ("notes", Some (JStr (notes c)));
     ("colors",
      Some (object [("left", Some (JStr (left (colors c))));
                    ("right", Some (JStr (right (colors c))))]));
     ("timing",
      Some (object [("baseline", Some (JNum (baseline (timing c))));
                    ("cue", Some (JNum (cue (timing c))));
                    ("mi", Some (JNum (mi (timing c))));
                    ("rest_min", Some (JNum (rest_min (timing c))));
                    ("rest_max", Some (JNum (rest_max (timing c))))]));
     ("blocks",
      Some (object [("num_blocks", Some (JNum (num_blocks (blocks c))));
                    ("trials_per_block", Some (JNum (trials_per_block (blocks c))));
                    ("practice_trials", Some (JNum (practice_trials (blocks c))));
                    ("break_duration", Some (JNum (break_duration (blocks c))))]))].

(** The code units that [String.prototype.trim] removes, the white space
    and the line terminators of ECMAScript: TAB, LF, VT, FF, CR, SPACE,
    NBSP, the Ogham space mark, the spaces U+2000 to U+200A, the line and
    the paragraph separator, the narrow no-break space, the medium
    mathematical space, the ideographic space and the byte order mark. *)
Definition white_space : list code_unit :=
  [ 0x0009; 0x000A; 0x000B; 0x000C; 0x000D; 0x0020; 0x00A0; 0x1680;
    0x2000; 0x2001; 0x2002; 0x2003; 0x2004; 0x2005; 0x2006; 0x2007;
    0x2008; 0x2009; 0x200A; 0x2028; 0x2029; 0x202F; 0x205F; 0x3000;
    0xFEFF ]%N.

Definition is_white_space (c : code_unit) : bool :=
  bool_decide (c ∈ white_space).

Fixpoint trimStart (s : js_string) : js_string :=
  match s with
  | c :: rest => if is_white_space c then trimStart rest else s
  | [] => []
  end.

Definition trimEnd (s : js_string) : js_string :=
  reverse (trimStart (reverse s)).

Definition trim (s : js_string) : js_string := trimEnd (trimStart s).

(** The integer part of a number, towards zero. *)
Definition truncate (q : Qc) : Z := Z.quot (Qnum q) (Zpos (Qden q)).

(** [a % b]; [None] is [NaN]. *)
Definition remainder (a b : Qc) : option Qc :=
  if bool_decide (b = Q2Qc 0) then None
  else Some (a - b * Q2Qc (inject_Z (truncate (a / b))))%Qc.

(** [x !== 0] for the result of [%]. *)
Definition nonzero (x : option Qc) : bool :=
  match x with
  | Some r => bool_decide (r ≠ Q2Qc 0)
  | None => true
  end.

(** The state of the [Home] component that [handleStart] reads and sets. *)
Record home : Type := Home {
  config : ExperimentConfig;
  status : SessionStatus;
  isRunning : bool;
  error : jsval;
  starting : bool
}.

Definition setStatus (s : SessionStatus) (h : home) : home :=
  Home (config h) s (isRunning h) (error h) (starting h).
Definition setIsRunning (b : bool) (h : home) : home :=
  Home (config h) (status h) b (error h) (starting h).
Definition setError (e : jsval) (h : home) : home :=
  Home (config h) (status h) (isRunning h) e (starting h).
Definition setStarting (b : bool) (h : home) : home :=
  Home (config h) (status h) (isRunning h) (error h) b.

(** What [fetch("/api/start", {method: "POST", body})] followed by
    [res.json()] gives: the server's change of the world, and the response,
    or [None] when the call or the decoding of the reply fails. *)
Definition start_endpoint : Type := text → world → option response * world.

(** The endpoint served by a route. *)
Definition served (route : text → M response) : start_endpoint :=
  λ request w,
    match route request w with
    | (Ok res, w') => (Some res, w')
    | (Throw _, w') => (None, w')
    end.

(** The endpoint of a server that cannot be reached. *)
Definition unreachable : start_endpoint := λ _ w, (None, w).

(** [async function handleStart()]: the next state of the component, the
    world of the server, and the bodies of the start requests issued. *)
Definition handleStart (fetch_start : start_endpoint) (h : home) (w : world)
  : home * world * list text :=
  let config := config h in
  if bool_decide (trim (participant_id config) = []) then
    (setError (Some (JStr "Participant ID is required")) h, w, [])
  else if nonzero (remainder (trials_per_block (blocks config)) (Q2Qc 2)) then
    (setError (Some (JStr "Trials per block must be even (balanced left/right)")) h,
     w, [])
  else if bool_decide (rest_max (timing config) ≤ rest_min (timing config))%Qc then
    (setError (Some (JStr "Rest Min must be less than Rest Max")) h, w, [])
  else
    let h := setStarting true (setStatus IDLE_STATUS (setError None h)) in
    let request := JSON_stringify (config_json config) in
    let connection_failure :=
      setStarting false (setError (Some (JStr "Failed to connect to server")) h) in
    match fetch_start request w with
    | (Some res, w') =>
        if negb (ok res) then
          match get (Some (body res)) "error" with
          | Ok reason =>
              (setStarting false
                 (setError (if truthy_val reason then reason
                            else Some (JStr "Failed to start session")) h),
               w', [request])
          | Throw _ => (connection_failure, w', [request])
          end
        else (setStarting false (setIsRunning true h), w', [request])
    | (None, w') => (connection_failure, w', [request])
    end.

End Page.

(** ** Sample sessions *)

Module Samples.

(** The server is started in [src/frontend] of a checkout in [/srv/helin]. *)
Definition cwd : path := ["srv"; "helin"; "src"; "frontend"].

(** A server that has just come up in an empty runtime directory. *)
Definition fresh : world := World ∅ None None None false 0 [].

(** The default configuration, for participant [P01]. *)
Definition config : Page.ExperimentConfig :=
  {| Page.participant_id := "P01";
     Page.session_number := Page.session_number Page.DEFAULT_CONFIG;
     Page.run_number := Page.run_number Page.DEFAULT_CONFIG;
     Page.device_frequency := Page.device_frequency Page.DEFAULT_CONFIG;
     Page.fullscreen := Page.fullscreen Page.DEFAULT_CONFIG;
     Page.screen := Page.screen Page.DEFAULT_CONFIG;
     Page.show_feedback := Page.show_feedback Page.DEFAULT_CONFIG;
     Page.notes := Page.notes Page.DEFAULT_CONFIG;
     Page.colors := Page.colors Page.DEFAULT_CONFIG;
     Page.timing := Page.timing Page.DEFAULT_CONFIG;
     Page.blocks := Page.blocks Page.DEFAULT_CONFIG |}.

(** What the stimulus process reports in the middle of the first block. *)
Definition progress : gmap string json :=
  {[ "state" := JStr "running"; "phase" := JStr "cue";
     "current_trial" := num 25; "total_trials" := num 50;
     "current_block" := num 1; "total_blocks" := num 2;
     "bad_trials" := num 1; "elapsed_seconds" := JNum (Q2Qc (2345 # 10));
     "output_file" := JStr "data/P01_S1_R1.csv" ]}.

(** What it reports when the protocol has finished. *)
Definition finished : gmap string json :=
  <["phase" := JStr "none"]> (<["state" := JStr "completed"]> progress).

(** A session under way: both children run, and [document], when there is
    one, is the text of [status.json]. *)
Definition session (document : option text) : world :=
  World (from_option (λ d, <[StartRoute.statusPath cwd := d]>) id document
           {[ StartRoute.configPath cwd := Json (Page.config_json config);
              StartRoute.feedbackPath cwd
                := Json FeedbackRoute.DISCONNECTED_STATE ]})
        (Some (Child 0 false)) (Some (Child 1 false)) None false 2 [].

(** The same runtime directory once both children are gone. *)
Definition at_rest (document : option text) : world :=
  with_stimulusProcess None (with_feedbackProcess None (session document)).

(** A configuration with an odd number of trials per block, and one whose
    rest range is empty. *)
Definition unbalanced : Page.ExperimentConfig :=
  {| Page.participant_id := "P01";
     Page.session_number := Page.session_number config;
     Page.run_number := Page.run_number config;
     Page.device_frequency := Page.device_frequency config;
     Page.fullscreen := Page.fullscreen config;
     Page.screen := Page.screen config;
     Page.show_feedback := Page.show_feedback config;
     Page.notes := Page.notes config;
     Page.colors := Page.colors config;
     Page.timing := Page.timing config;
     Page.blocks := {| Page.num_blocks := Q2Qc 2;
                       Page.trials_per_block := Q2Qc (inject_Z 51);
                       Page.practice_trials := Q2Qc 10;
                       Page.break_duration := Q2Qc 120 |} |}.

Definition restless : Page.ExperimentConfig :=
  {| Page.participant_id := "P01";
     Page.session_number := Page.session_number config;
     Page.run_number := Page.run_number config;
     Page.device_frequency := Page.device_frequency config;
     Page.fullscreen := Page.fullscreen config;
     Page.screen := Page.screen config;
     Page.show_feedback := Page.show_feedback config;
     Page.notes := Page.notes config;
     Page.colors := Page.colors config;
     Page.timing := {| Page.baseline := Q2Qc 2; Page.cue := Q2Qc 1;
                       Page.mi := Q2Qc 4;
                       Page.rest_min := Q2Qc 3; Page.rest_max := Q2Qc 3 |};
     Page.blocks := Page.blocks config |}.

(** A configuration whose participant is white space only: a space, an
    ideographic space, an em space, a byte order mark and a tabulation. *)
Definition anonymous : Page.ExperimentConfig :=
  {| Page.participant_id := [0x0020; 0x3000; 0x2003; 0xFEFF; 0x0009]%N;
     Page.session_number := Page.session_number config;
     Page.run_number := Page.run_number config;
     Page.device_frequency := Page.device_frequency config;
     Page.fullscreen := Page.fullscreen config;
     Page.screen := Page.screen config;
     Page.show_feedback := Page.show_feedback config;
     Page.notes := Page.notes config;
     Page.colors := Page.colors config;
     Page.timing := Page.timing config;
     Page.blocks := Page.blocks config |}.

(** The page as first rendered, showing [c]. *)
Definition page (c : Page.ExperimentConfig) : Page.home :=
  Page.Home c Page.IDLE_STATUS false None false.

(** The start endpoint of the sample server, with a quiet wait. *)
Definition endpoint : Page.start_endpoint :=
  Page.served (λ request, StartRoute.POST cwd request []).

End Samples.

(** ** Vocabulary of the properties *)

Import StartRoute.

(** All that the exit handler ever writes is the fallback document, to
    [status.json]. *)
Definition only_fallback_writes (cwd : path) (later : list effect) : Prop :=
  Forall (λ e, e = WriteFile (statusPath cwd) (Json fallback_status)) later.

(** The effects of a launch, in order. *)
Definition launch_effects (cwd : path) (config fresh : json) (child : nat)
  : list effect :=
  [ Mkdir (tmpDir cwd);
    Mkdir (dataDir cwd);
    WriteFile (configPath cwd) (Json config);
    WriteFile (statusPath cwd) (Json fresh);
    Spawn child "python"
      [path_string (scriptPath cwd); "--config"; path_string (configPath cwd)];
    Spawn (S child) "python"
      [path_string (feedbackScriptPath cwd); "--config";
       path_string (configPath cwd)] ].

(** The document [DELETE] writes over a status [document]. *)
Definition stopped (document : gmap string json) : json :=
  JObj (<["phase" := JStr "none"]> (<["state" := JStr "aborted"]> document)).

(** The record of a stop: which signals were sent and whether
    [feedback.json] was unlinked. *)
Definition stop_effects (cwd : path) (w : world) : list effect :=
  (from_option (λ h, [Kill (pid h)]) [] (stimulusProcess w)
   ++ (if alive (feedbackProcess w)
       then from_option (λ h, [Kill (pid h)]) [] (feedbackProcess w)
       else [])
   ++ match files w !! feedbackPath cwd with
      | Some _ => [Unlink (feedbackPath cwd)]
      | None => []
      end)%list.

(** The two ways a session is terminated by the server. *)
Inductive termination_cause : Type :=
  | ExplicitStop
  | AbnormalExit (code : Z).

(** [state] is [completed] or [aborted]. *)
Definition terminal (document : gmap string json) : bool :=
  is_string (document !! "state") "aborted"
  || is_string (document !! "state") "completed".

(** The reconciler as one function of the previous document and the cause,
    to be compared with what [DELETE] and the exit handler do. *)
Definition reconcile (cause : termination_cause) (previous : gmap string json)
  : json :=
  if terminal previous then JObj previous
  else match cause with
       | ExplicitStop => stopped previous
       | AbnormalExit _ => fallback_status
       end.

(** No tracked handle has its [killed] flag set. *)
Definition handles_unflagged (w : world) : Prop :=
  ∀ h, stimulusProcess w = Some h ∨ feedbackProcess w = Some h →
       killed h = false.

(** ** Polling and stopping in [app/page.tsx] *)

Module Polling.

(** The state of the [Home] component that [pollStatus], [handleStop] and
    [handleReset] read and set. [status] is the value last handed to
    [setStatus], which is whatever the status route returned; [polling]
    says whether [pollingRef.current] holds an interval. *)
Record view : Type := View {
  status : json;
  isRunning : bool;
  error : jsval;
  polling : bool
}.

Definition setStatus (s : json) (v : view) : view :=
  View s (isRunning v) (error v) (polling v).
Definition setIsRunning (b : bool) (v : view) : view :=
  View (status v) b (error v) (polling v).
Definition setError (e : jsval) (v : view) : view :=
  View (status v) (isRunning v) e (polling v).

(** [if (pollingRef.current) { clearInterval(...); pollingRef.current = null }] *)
Definition clearPolling (v : view) : view :=
  View (status v) (isRunning v) (error v) false.

(** [IDLE_STATUS] as a value. *)
Definition IDLE_STATUS : json :=
  object [("state", Some (JStr "idle"));
          ("phase", Some (JStr "none"));
          ("current_trial", Some (num 0));
          ("total_trials", Some (num 0));
          ("current_block", Some (num 0));
          ("total_blocks", Some (num 0));
          ("bad_trials", Some (num 0));
          ("elapsed_seconds", Some (num 0));
          ("output_file", Some (JStr ""))].

(** What a [fetch] of a route without a body gives: the change of the
    world of the server and the response, or [None] when the promise is
    rejected because the server cannot be reached. *)
Definition endpoint : Type := world → option response * world.

(** The endpoint served by a route. A route that throws is answered by the
    framework with status 500; this development gives that response the
    body [null], which no caller decodes since [res.ok] is false. *)
Definition answered (route : M response) : endpoint :=
  λ w, match route w with
       | (Ok res, w') => (Some res, w')
       | (Throw _, w') => (Some (Response 500 JNull), w')
       end.

Definition offline : endpoint := λ w, (None, w).

(** [const pollStatus = useCallback(async () => ...)] *)
Definition pollStatus (fetch_status : endpoint) (v : view) (w : world)
  : view * world :=
  match fetch_status w with
  | (Some res, w') =>
      if ok res then
        let data := body res in
        let shown := setStatus data v in
        match get (Some data) "state" with
        | Ok state =>
            if is_string state "completed" || is_string state "aborted"
            then (clearPolling (setIsRunning false shown), w')
            else (shown, w')
        | Throw _ => (shown, w')
        end
      else (v, w')
  | (None, w') => (v, w')
  end.

(** [async function handleStop()] *)
Definition handleStop (fetch_stop fetch_status : endpoint) (v : view) (w : world)
  : view * world :=
  match fetch_stop w with
  | (Some _, w') =>
      pollStatus fetch_status (clearPolling (setIsRunning false v)) w'
  | (None, w') => (setError (Some (JStr "Failed to stop session")) v, w')
  end.

(** [function handleReset()] *)
Definition handleReset (v : view) : view :=
  setError None (setIsRunning false (setStatus IDLE_STATUS v)).

End Polling.

(** ** Saved defaults: [components/config-form.tsx] and [app/page.tsx] *)

Module Defaults.

Definition STORAGE_KEY : string := "helin-defaults".

(** A string kept in [localStorage]: the empty string, or a text that is
    not empty, seen through [JSON.parse]. *)
Inductive item : Type :=
  | Blank
  | Text (t : text).

#[global] Instance outcome_ret : MRet outcome := λ A a, Ok a.

#[global] Instance outcome_bind : MBind outcome := λ A B k o,
  match o with
  | Ok a => k a
  | Throw e => Throw e
  end.

(** [a ?? b], where [b] is evaluated only when [a] is [null] or
    [undefined]. *)
Definition coalesce (a : jsval) (b : outcome jsval) : outcome jsval :=
  match a with
  | None | Some JNull => b
  | Some _ => Ok a
  end.

(** [{...config, colors: d.colors ?? config.colors, timing: ..., blocks: ...}] *)
Definition merged (d config : json) : outcome json :=
  colors ← get (Some d) "colors" ≫= λ a, coalesce a (get (Some config) "colors");
  timing ← get (Some d) "timing" ≫= λ a, coalesce a (get (Some config) "timing");
  blocks ← get (Some d) "blocks" ≫= λ a, coalesce a (get (Some config) "blocks");
  mret (JObj (extend (spread config)
                [("colors", colors); ("timing", timing); ("blocks", blocks)])).

(** The button "Save as Default". *)
Definition save (config : json) (storage : gmap string item)
  : outcome (gmap string item) :=
  colors ← get (Some config) "colors";
  timing ← get (Some config) "timing";
  blocks ← get (Some config) "blocks";
  mret (<[STORAGE_KEY :=
            Text (JSON_stringify
                    (object [("colors", colors); ("timing", timing);
                             ("blocks", blocks)]))]> storage).

(** The button "Load Defaults": the stored sections, or those of
    [DEFAULT_CONFIG] when nothing is stored. [JSON.parse] is not guarded
    here. *)
Definition load (config : json) (storage : gmap string item) : outcome json :=
  match storage !! STORAGE_KEY with
  | Some (Text raw) =>
      defaults ← JSON_parse raw;
      merged defaults config
  | Some Blank | None =>
      let factory := Page.config_json Page.DEFAULT_CONFIG in
      colors ← get (Some factory) "colors";
      timing ← get (Some factory) "timing";
      blocks ← get (Some factory) "blocks";
      mret (JObj (extend (spread config)
                    [("colors", colors); ("timing", timing);
                     ("blocks", blocks)]))
  end.

(** The effect of [Home] that restores the saved defaults after mount:
    the next configuration, given the previous one. The parse is inside
    the [try]; the update function handed to [setConfig] is run by the
    framework, so what it throws is not caught there. *)
Definition restore (storage : gmap string item) (prev : json) : outcome json :=
  match storage !! STORAGE_KEY with
  | Some (Text raw) =>
      match JSON_parse raw with
      | Ok saved => merged saved prev
      | Throw _ => Ok prev
      end
  | Some Blank | None => Ok prev
  end.

End Defaults.

(** ** Vocabulary of the further properties *)

(** Events that do not end the stimulus process: data on its pipes, and
    anything the feedback process does. *)
Definition is_chatter (e : settle_event) : bool :=
  match e with
  | Stimulus (StderrData _) | Stimulus (StdoutData _) | Feedback _ => true
  | Stimulus (Exit _) | Stimulus (SpawnError _) => false
  end.

(** What the stimulus process wrote to its standard error, in order. *)
Fixpoint stderr_of (events : list settle_event) : string :=
  match events with
  | [] => ""
  | Stimulus (StderrData data) :: rest => data +:+ stderr_of rest
  | _ :: rest => stderr_of rest
  end.

(** Whether the feedback process ended or failed to start. *)
Fixpoint feedback_gone (events : list settle_event) : bool :=
  match events with
  | [] => false
  | Feedback (Exit _) :: _ | Feedback (SpawnError _) :: _ => true
  | _ :: rest => feedback_gone rest
  end.

(** The reason recorded for an exit with code [c]. *)
Definition exit_reason (stderrBuffer : string) (c : Z) : string :=
  or_else (slice_last 500 stderrBuffer)
          ("Process exited with code " +:+ pretty c).

(** The reason recorded when the interpreter cannot be started. *)
Definition launch_reason (msg : string) : string :=
  "Failed to start Python: " +:+ msg +:+ ". Is Python installed and on PATH?".

(** A start on [w] is not turned away as a conflict. *)
Definition accepts_start (cwd : path) (w : world) : Prop :=
  ∀ request settle, (POST cwd request settle w).1 ≠ Ok conflict.

(** The body of the health report. *)
Definition health (running feedbackRunning : bool) (error : json) : json :=
  JObj {[ "running" := JBool running;
          "feedbackRunning" := JBool feedbackRunning;
          "error" := error ]}.

(** [config.blocks], for a configuration other than [null]. *)
Definition blocks_of (config : json) : jsval :=
  match config with
  | JObj props => props !! "blocks"
  | _ => None
  end.

(** [blocks.key], for [blocks] other than [null]. *)
Definition member (blocks : json) (key : string) : jsval :=
  match blocks with
  | JObj props => props !! key
  | _ => None
  end.

(** A configuration from which [POST] can read the two totals: it is not
    [null] and its [blocks] is neither missing nor [null]. *)
Definition usable (config : json) : Prop :=
  config ≠ JNull ∧ ∃ blocks, blocks_of config = Some blocks ∧ blocks ≠ JNull.

(** The world once a launch has gone through. *)
Definition launched (cwd : path) (config blocks : json) (w : world) : world :=
  let fresh :=
    initial_status (member blocks "trials_per_block")
                   (member blocks "num_blocks") in
  World (<[statusPath cwd := Json fresh]>
           (<[configPath cwd := Json config]> (files w)))
        (Some (Child (spawned w) false))
        (Some (Child (S (spawned w)) false))
        None false (S (S (spawned w)))
        (effects w ++ launch_effects cwd config fresh (spawned w))%list.

(** The world after a wait during which the stimulus process kept running. *)
Definition after_chatter (events : list settle_event) (w : world) : world :=
  if feedback_gone events then with_feedbackProcess None w else w.

(** The sections of a configuration that are kept as defaults. *)
Definition sections : list string := ["colors"; "timing"; "blocks"].

(** A value that [??] keeps: neither [undefined] nor [null]. *)
Definition present (v : jsval) : bool :=
  match v with
  | None | Some JNull => false
  | Some _ => true
  end.

(** The start endpoint of the route, for the events of one wait. *)
Definition start_route (cwd : path) (settle : list settle_event)
  : Page.start_endpoint :=
  Page.served (λ request, POST cwd request settle).

(** * Properties *)

(** ** Paths *)

Lemma statusPath_segments cwd :
  statusPath cwd = (getProjectRoot cwd ++ ["tmp"; "status.json"])%list.
Proof. unfold statusPath, tmpDir, join. by rewrite <- app_assoc. Qed.

Lemma configPath_segments cwd :
  configPath cwd = (getProjectRoot cwd ++ ["tmp"; "config.json"])%list.
Proof. unfold configPath, tmpDir, join. by rewrite <- app_assoc. Qed.

Lemma configPath_not_statusPath cwd : configPath cwd ≠ statusPath cwd.
Proof.
  rewrite statusPath_segments, configPath_segments.
  intros H%app_inv_head. discriminate.
Qed.

Lemma feedbackPath_not_statusPath cwd : feedbackPath cwd ≠ statusPath cwd.
Proof.
  rewrite statusPath_segments. unfold feedbackPath, join.
  intros H%app_inv_head. discriminate.
Qed.

Lemma feedbackPath_not_configPath cwd : feedbackPath cwd ≠ configPath cwd.
Proof.
  rewrite configPath_segments. unfold feedbackPath, join.
  intros H%app_inv_head. discriminate.
Qed.

(** The three routes agree on where the documents live. *)
Lemma status_route_path cwd : StatusRoute.statusPath cwd = statusPath cwd.
Proof. by rewrite statusPath_segments. Qed.

Lemma feedback_route_path cwd : FeedbackRoute.feedbackPath cwd = feedbackPath cwd.
Proof. done. Qed.

(** ** Running the monad *)

(** One pass of evaluation: the monad, the primitives of the world and the
    tests on values are unfolded; maps and paths are left as they are. *)
Ltac run :=
  repeat
    (progress
       (unfold exec, mbind, M_bind, mret, M_ret, modify, read, lift, try_catch,
          throw, existsSync, readFileSync, writeFileSync, unlinkSync, mkdirSync,
          spawn, kill, not_terminal, JSON_parse, JSON_stringify, log,
          with_files, with_stimulusProcess, with_feedbackProcess,
          with_processError, with_processExited, with_spawned;
        cbn [get is_string truthy truthy_val spread alive from_option default
             negb andb orb fst snd
             files stimulusProcess feedbackProcess processError processExited
             spawned effects pid killed])).

(** Run, reading the files as the hypothesis [H] says. *)
Ltac run_reading H := run; repeat (rewrite H; run).

Ltac open_world w :=
  destruct w as [fs stimulus feedback perr pexited count log0];
  cbn [files stimulusProcess feedbackProcess processError processExited
       spawned effects] in *.

(** The cases of a stop: the feedback handle and [feedback.json]. *)
Ltac stop_cases cwd fs feedback :=
  let Hfeedback := fresh "Hfeedback" in
  destruct feedback as [[? [|]]|]; run;
  (destruct (fs !! feedbackPath cwd) eqn:Hfeedback; run_reading Hfeedback;
   [|rewrite (delete_id _ _ Hfeedback)]).

(** ** The exit handler of the stimulus process *)

(** A code of zero, or no code, leaves every file alone. *)
Lemma stimulus_on_exit_clean cwd stderrBuffer code w :
  code = Some 0%Z ∨ code = None →
  stimulus_on_exit cwd stderrBuffer code w
  = (Ok (), with_stimulusProcess None (with_processExited true w)).
Proof.
  intros [-> | ->]; unfold stimulus_on_exit; open_world w; [|by run].
  replace (bool_decide (0%Z ≠ 0%Z)) with false by reflexivity. by run.
Qed.

(** A terminal document survives any exit code. *)
Lemma stimulus_on_exit_terminal cwd stderrBuffer code w props :
  files w !! statusPath cwd = Some (Json (JObj props)) →
  props !! "state" = Some (JStr "completed")
  ∨ props !! "state" = Some (JStr "aborted") →
  files (exec (stimulus_on_exit cwd stderrBuffer code) w) = files w
  ∧ effects (exec (stimulus_on_exit cwd stderrBuffer code) w) = effects w.
Proof.
  intros Hfile Hstate. unfold stimulus_on_exit. open_world w.
  destruct code as [c|]; [|by run].
  destruct (bool_decide (c ≠ 0%Z)); [|by run].
  run_reading Hfile.
  by destruct Hstate as [-> | ->].
Qed.

(** A document that is an object and not terminal is replaced by the
    fallback document when the code is neither zero nor [null]. *)
Lemma stimulus_on_exit_live cwd stderrBuffer c w props :
  c ≠ 0%Z →
  files w !! statusPath cwd = Some (Json (JObj props)) →
  props !! "state" ≠ Some (JStr "completed") →
  props !! "state" ≠ Some (JStr "aborted") →
  files (exec (stimulus_on_exit cwd stderrBuffer (Some c)) w)
  = <[statusPath cwd := Json fallback_status]> (files w).
Proof.
  intros Hc Hfile Hcompleted Haborted. unfold stimulus_on_exit.
  rewrite bool_decide_eq_true_2 by done.
  open_world w. run_reading Hfile.
  destruct (props !! "state") as [[| | |s| |]|] eqn:Hstate; simpl; try done.
  rewrite !bool_decide_eq_false_2; [done | |]; congruence.
Qed.

(** No document at all: the fallback document is created. *)
Lemma stimulus_on_exit_absent cwd stderrBuffer c w :
  c ≠ 0%Z →
  files w !! statusPath cwd = None →
  files (exec (stimulus_on_exit cwd stderrBuffer (Some c)) w)
  = <[statusPath cwd := Json fallback_status]> (files w).
Proof.
  intros Hc Hfile. unfold stimulus_on_exit.
  rewrite bool_decide_eq_true_2 by done.
  open_world w. by run_reading Hfile.
Qed.

(** The handler never throws, touches no file but [status.json] and writes
    at most the fallback document. *)
Lemma stimulus_on_exit_frame cwd stderrBuffer code w :
  ∃ w' later,
    stimulus_on_exit cwd stderrBuffer code w = (Ok (), w')
    ∧ effects w' = (effects w ++ later)%list
    ∧ only_fallback_writes cwd later
    ∧ spawned w' = spawned w
    ∧ (∀ file, file ≠ statusPath cwd → files w' !! file = files w !! file)
    ∧ stimulusProcess w' = None
    ∧ feedbackProcess w' = feedbackProcess w.
Proof.
  assert (Hclean : code = Some 0%Z ∨ code = None ∨ ∃ c, c ≠ 0%Z ∧ code = Some c).
  { destruct code as [c|]; [destruct (decide (c = 0%Z)) as [-> | Hc]|]; eauto. }
  open_world w.
  destruct Hclean as [Hcode | [Hcode | (c & Hc & ->)]].
  1, 2: rewrite stimulus_on_exit_clean by auto; run; eexists _, [];
        rewrite app_nil_r; by split_and!; try constructor.
  unfold stimulus_on_exit. rewrite bool_decide_eq_true_2 by done.
  destruct (fs !! statusPath cwd) as [[doc | msg]|] eqn:Hfile; run_reading Hfile.
  1: destruct doc as [|b|n|s|items|props]; run;
     [|destruct b|destruct (bool_decide (n ≠ Q2Qc 0))
      |destruct (bool_decide (s ≠ []))|
      |destruct (negb (is_string (props !! "state") "aborted")
                 && negb (is_string (props !! "state") "completed"))];
     run.
  all: first
         [ by eexists _, []; rewrite app_nil_r; split_and!; try constructor
         | eexists _, [_]; split_and!; try done; [by repeat constructor|];
           intros file Hfile'; simpl; rewrite lookup_insert_ne; congruence ].
Qed.

(** ** The wait of [POST] *)

Lemma settle_window_frame cwd events : ∀ stderrBuffer w,
  ∃ stderrBuffer' w' later,
    settle_window cwd events stderrBuffer w = (Ok stderrBuffer', w')
    ∧ effects w' = (effects w ++ later)%list
    ∧ only_fallback_writes cwd later
    ∧ spawned w' = spawned w
    ∧ ∀ file, file ≠ statusPath cwd → files w' !! file = files w !! file.
Proof.
  induction events as [|event events IH]; intros stderrBuffer w.
  { eexists _, _, []. rewrite app_nil_r. by split_and!; try constructor. }
  assert (Hstep : ∀ w1 buffer1 first,
    effects w1 = (effects w ++ first)%list →
    only_fallback_writes cwd first →
    spawned w1 = spawned w →
    (∀ file, file ≠ statusPath cwd → files w1 !! file = files w !! file) →
    ∃ stderrBuffer' w' later,
      settle_window cwd events buffer1 w1 = (Ok stderrBuffer', w')
      ∧ effects w' = (effects w ++ later)%list
      ∧ only_fallback_writes cwd later
      ∧ spawned w' = spawned w
      ∧ ∀ file, file ≠ statusPath cwd → files w' !! file = files w !! file).
  { intros w1 buffer1 first Heff Hfirst Hcount Hfiles.
    destruct (IH buffer1 w1) as (buffer' & w' & later & -> & Heff' & Hlater & Hcount' & Hfiles').
    eexists _, _, (first ++ later)%list. split_and!; [done| | | |].
    - by rewrite Heff', Heff, app_assoc.
    - by apply Forall_app.
    - congruence.
    - intros file Hfile. by rewrite Hfiles', Hfiles. }
  destruct event as [[data|data|code|msg] | [data|data|code|msg]]; simpl.
  3: { destruct (stimulus_on_exit_frame cwd stderrBuffer code w)
         as (w1 & first & Hrun & Heff & Hfirst & Hcount & Hfiles & _).
       unfold mbind at 1, M_bind, modify, exec. rewrite Hrun. cbn [snd].
       by eapply Hstep. }
  all: try (unfold mbind at 1, M_bind, modify, exec; cbn [snd]).
  all: eapply (Hstep _ _ []); [|constructor|..]; destruct w; run;
       by rewrite ?app_nil_r.
Qed.

(** ** Starting a session *)

(** The fresh status document, field by field. *)
Lemma initial_status_fields (t n : json) :
  initial_status (Some t) (Some n)
  = JObj {[ "state" := JStr "practice"; "phase" := JStr "none";
            "current_trial" := num 0; "total_trials" := t;
            "current_block" := num 0; "total_blocks" := n;
            "bad_trials" := num 0; "elapsed_seconds" := num 0;
            "output_file" := JStr "" ]}.
Proof. reflexivity. Qed.

Lemma POST_launch_ok cwd props blocks (t n : json) w :
  props !! "blocks" = Some (JObj blocks) →
  blocks !! "trials_per_block" = Some t →
  blocks !! "num_blocks" = Some n →
  POST_launch cwd (Json (JObj props)) w
  = (Ok (),
     World (<[statusPath cwd := Json (initial_status (Some t) (Some n))]>
              (<[configPath cwd := Json (JObj props)]> (files w)))
           (Some (Child (spawned w) false))
           (Some (Child (S (spawned w)) false))
           None false (S (S (spawned w)))
           (effects w
            ++ launch_effects cwd (JObj props)
                 (initial_status (Some t) (Some n)) (spawned w))%list).
Proof.
  intros Hblocks Ht Hn. unfold POST_launch. open_world w.
  run. rewrite Hblocks. run. rewrite Ht. run. rewrite Hn. run.
  by rewrite <- !app_assoc.
Qed.

(** A body without usable [blocks] stops the launch after [config.json] has
    been written. *)
Lemma POST_launch_without_blocks cwd props w :
  props !! "blocks" = None →
  POST_launch cwd (Json (JObj props)) w
  = (Throw (type_error "undefined" "trials_per_block"),
     World (<[configPath cwd := Json (JObj props)]> (files w))
           (stimulusProcess w) (feedbackProcess w) (processError w)
           (processExited w) (spawned w)
           (effects w
            ++ [Mkdir (tmpDir cwd); Mkdir (dataDir cwd);
                WriteFile (configPath cwd) (Json (JObj props))])%list).
Proof.
  intros Hblocks. unfold POST_launch. open_world w.
  run. rewrite Hblocks. run. by rewrite <- !app_assoc.
Qed.

(** A start with nothing running and a quiet wait succeeds. *)
Lemma POST_quiet cwd props blocks (t n : json) w :
  alive (stimulusProcess w) = false →
  props !! "blocks" = Some (JObj blocks) →
  blocks !! "trials_per_block" = Some t →
  blocks !! "num_blocks" = Some n →
  ∃ w', POST cwd (Json (JObj props)) [] w = (Ok success, w')
    ∧ files w'
      = <[statusPath cwd := Json (initial_status (Some t) (Some n))]>
          (<[configPath cwd := Json (JObj props)]> (files w))
    ∧ effects w'
      = (effects w
         ++ launch_effects cwd (JObj props)
              (initial_status (Some t) (Some n)) (spawned w))%list
    ∧ stimulusProcess w' = Some (Child (spawned w) false)
    ∧ feedbackProcess w' = Some (Child (S (spawned w)) false).
Proof.
  intros Hidle Hblocks Ht Hn.
  unfold POST. unfold mbind at 1, M_bind, read at 1. rewrite Hidle.
  unfold try_catch, mbind at 1, M_bind.
  rewrite (POST_launch_ok cwd props blocks t n w Hblocks Ht Hn).
  by eexists.
Qed.

(** [POST] always answers. *)
Lemma POST_total cwd request settle w :
  ∃ res w', POST cwd request settle w = (Ok res, w').
Proof.
  unfold POST. unfold mbind at 1, M_bind, read at 1.
  destruct (alive (stimulusProcess w)); [by eexists _, _|].
  unfold try_catch, mbind at 1, M_bind.
  destruct (POST_launch cwd request w) as [[[]|err] launched]; [|by eexists _, _].
  unfold mbind at 1, M_bind.
  destruct (settle_window_frame cwd settle "" launched)
    as (buffer & w' & later & -> & _).
  unfold POST_report. run. destruct (processExited w'); by eexists _, _.
Qed.

(** ** Stopping a session *)

Lemma stopped_fields document :
  ∃ props, stopped document = JObj props
    ∧ props !! "state" = Some (JStr "aborted")
    ∧ props !! "phase" = Some (JStr "none")
    ∧ ∀ key, key ≠ "state" → key ≠ "phase" → props !! key = document !! key.
Proof.
  eexists. split_and!; [done | | |].
  - by rewrite lookup_insert_ne, lookup_insert_eq.
  - by rewrite lookup_insert_eq.
  - intros key Hstate Hphase. by rewrite !lookup_insert_ne.
Qed.

(** With nothing to stop, [DELETE] only answers. *)
Lemma DELETE_idle cwd w :
  alive (stimulusProcess w) = false → DELETE cwd w = (Ok success, w).
Proof. intros Hidle. unfold DELETE. run. by rewrite Hidle. Qed.

(** With a session to stop, [DELETE] answers with success as well, and
    clears the handles of the children it signals. *)
Lemma DELETE_handles cwd w h :
  stimulusProcess w = Some h → killed h = false →
  ∃ w', DELETE cwd w = (Ok success, w')
    ∧ stimulusProcess w' = None
    ∧ feedbackProcess w'
      = (if alive (feedbackProcess w) then None else feedbackProcess w).
Proof.
  intros Hstimulus Hkilled.
  open_world w. subst stimulus. destruct h as [child flag]. simpl in *. subst flag.
  unfold DELETE.
  destruct (fs !! statusPath cwd) as [[document|msg]|] eqn:Hfile;
    run_reading Hfile.
  1: destruct document as [|b|n|s|items|props]; run;
     [|destruct b|destruct (bool_decide (n ≠ Q2Qc 0))
      |destruct (bool_decide (s ≠ []))|
      |destruct (negb (is_string (props !! "state") "aborted")
                 && negb (is_string (props !! "state") "completed"))];
     run.
  all: destruct feedback as [[? [|]]|]; run;
       destruct (fs !! feedbackPath cwd) eqn:Hfeedback; run_reading Hfeedback.
  all: by eexists.
Qed.

(** [DELETE] always answers with success. *)
Lemma DELETE_total cwd w : ∃ w', DELETE cwd w = (Ok success, w').
Proof.
  destruct (alive (stimulusProcess w)) eqn:Halive;
    [|by rewrite DELETE_idle; eauto].
  destruct (stimulusProcess w) as [h|] eqn:Hstimulus; [|done].
  apply negb_true_iff in Halive.
  destruct (DELETE_handles cwd w h Hstimulus Halive) as (w' & -> & _).
  by eexists.
Qed.

(** Stopping over a document that is an object and not terminal. *)
Lemma DELETE_live_document cwd w h props :
  stimulusProcess w = Some h → killed h = false →
  files w !! statusPath cwd = Some (Json (JObj props)) →
  props !! "state" ≠ Some (JStr "aborted") →
  props !! "state" ≠ Some (JStr "completed") →
  ∃ w', DELETE cwd w = (Ok success, w')
    ∧ files w'
      = <[statusPath cwd := Json (stopped props)]>
          (delete (feedbackPath cwd) (files w))
    ∧ effects w'
      = (effects w ++ stop_effects cwd w
         ++ [WriteFile (statusPath cwd) (Json (stopped props))])%list
    ∧ stimulusProcess w' = None
    ∧ feedbackProcess w'
      = (if alive (feedbackProcess w) then None else feedbackProcess w).
Proof.
  intros Hstimulus Hkilled Hfile Haborted Hcompleted.
  open_world w. subst stimulus. destruct h as [child flag]. simpl in *. subst flag.
  unfold DELETE, stop_effects. run_reading Hfile.
  assert (Hmark : negb (is_string (props !! "state") "aborted")
                  && negb (is_string (props !! "state") "completed") = true).
  { destruct (props !! "state") as [[| | |s| |]|]; simpl; try done.
    rewrite !bool_decide_eq_false_2; [done | |]; congruence. }
  rewrite Hmark.
  stop_cases cwd fs feedback.
  all: eexists; split_and!; try done; simpl.
  all: by rewrite <- ?app_assoc.
Qed.

(** Stopping over a terminal document. *)
Lemma DELETE_terminal_document cwd w h props :
  stimulusProcess w = Some h → killed h = false →
  files w !! statusPath cwd = Some (Json (JObj props)) →
  props !! "state" = Some (JStr "completed")
  ∨ props !! "state" = Some (JStr "aborted") →
  ∃ w', DELETE cwd w = (Ok success, w')
    ∧ files w' = delete (feedbackPath cwd) (files w)
    ∧ effects w' = (effects w ++ stop_effects cwd w)%list
    ∧ stimulusProcess w' = None
    ∧ feedbackProcess w'
      = (if alive (feedbackProcess w) then None else feedbackProcess w).
Proof.
  intros Hstimulus Hkilled Hfile Hstate.
  open_world w. subst stimulus. destruct h as [child flag]. simpl in *. subst flag.
  unfold DELETE, stop_effects. run_reading Hfile.
  assert (Hmark : negb (is_string (props !! "state") "aborted")
                  && negb (is_string (props !! "state") "completed") = false).
  { by destruct Hstate as [-> | ->]. }
  rewrite Hmark.
  stop_cases cwd fs feedback.
  all: eexists; split_and!; try done; simpl.
  all: by rewrite <- ?app_assoc, ?app_nil_r.
Qed.

(** Stopping when [status.json] cannot be read. *)
Lemma DELETE_unreadable_document cwd w h :
  stimulusProcess w = Some h → killed h = false →
  (files w !! statusPath cwd = None
   ∨ ∃ msg, files w !! statusPath cwd = Some (Malformed msg)) →
  ∃ w', DELETE cwd w = (Ok success, w')
    ∧ files w' = delete (feedbackPath cwd) (files w)
    ∧ effects w' = (effects w ++ stop_effects cwd w)%list
    ∧ stimulusProcess w' = None
    ∧ feedbackProcess w'
      = (if alive (feedbackProcess w) then None else feedbackProcess w).
Proof.
  intros Hstimulus Hkilled Hfile.
  open_world w. subst stimulus. destruct h as [child flag]. simpl in *. subst flag.
  unfold DELETE, stop_effects.
  destruct Hfile as [Hfile | [msg Hfile]]; run_reading Hfile.
  all: stop_cases cwd fs feedback.
  all: eexists; split_and!; try done; simpl.
  all: by rewrite <- ?app_assoc, ?app_nil_r.
Qed.

(** ** Reading the documents *)

Lemma status_GET_absent cwd w :
  files w !! StatusRoute.statusPath cwd = None →
  StatusRoute.GET cwd w
  = (Ok (NextResponse_json StatusRoute.idle_status 200), w).
Proof. intros Hfile. unfold StatusRoute.GET. by run_reading Hfile. Qed.

Lemma status_GET_document cwd w document :
  files w !! StatusRoute.statusPath cwd = Some (Json document) →
  StatusRoute.GET cwd w = (Ok (NextResponse_json document 200), w).
Proof. intros Hfile. unfold StatusRoute.GET. by run_reading Hfile. Qed.

Lemma status_GET_malformed cwd w msg :
  files w !! StatusRoute.statusPath cwd = Some (Malformed msg) →
  StatusRoute.GET cwd w = (Ok StatusRoute.read_failure, w).
Proof. intros Hfile. unfold StatusRoute.GET. by run_reading Hfile. Qed.

Lemma feedback_GET_absent cwd w :
  files w !! FeedbackRoute.feedbackPath cwd = None →
  FeedbackRoute.GET cwd w
  = (Ok (NextResponse_json FeedbackRoute.DISCONNECTED_STATE 200), w).
Proof. intros Hfile. unfold FeedbackRoute.GET. by run_reading Hfile. Qed.

Lemma feedback_GET_document cwd w document :
  files w !! FeedbackRoute.feedbackPath cwd = Some (Json document) →
  FeedbackRoute.GET cwd w = (Ok (NextResponse_json document 200), w).
Proof. intros Hfile. unfold FeedbackRoute.GET. by run_reading Hfile. Qed.

Lemma feedback_GET_malformed cwd w msg :
  files w !! FeedbackRoute.feedbackPath cwd = Some (Malformed msg) →
  FeedbackRoute.GET cwd w = (Ok FeedbackRoute.read_failure, w).
Proof. intros Hfile. unfold FeedbackRoute.GET. by run_reading Hfile. Qed.

(** ** The checks of the start handler *)

Lemma trimStart_white_space s :
  Forall (λ c, Page.is_white_space c = true) s → Page.trimStart s = [].
Proof.
  induction s as [|c s IH]; cbn [Page.trimStart]; [done|].
  intros [Hc Hs]%Forall_cons. rewrite Hc. by apply IH.
Qed.

Lemma trim_white_space s :
  Forall (λ c, Page.is_white_space c = true) s → Page.trim s = [].
Proof.
  intros Hs. unfold Page.trim. by rewrite trimStart_white_space.
Qed.

(** An odd integer leaves a remainder when divided by two, whatever the
    quotient is taken to be. *)
Lemma odd_not_twice (n k : Z) :
  Z.odd n = true →
  (Q2Qc (inject_Z n) - Q2Qc 2 * Q2Qc (inject_Z k))%Qc ≠ Q2Qc 0.
Proof.
  intros Hodd Heq. unfold Qcminus, Qcplus, Qcopp, Qcmult in Heq.
  apply Q2Qc_eq_iff in Heq. simpl in Heq.
  rewrite !Qred_correct in Heq.
  unfold Qeq in Heq. simpl in Heq.
  rewrite Z.odd_spec in Hodd. destruct Hodd as [m ->]. lia.
Qed.

Lemma remainder_odd (n : Z) :
  Z.odd n = true →
  Page.nonzero (Page.remainder (Q2Qc (inject_Z n)) (Q2Qc 2)) = true.
Proof.
  intros Hodd. unfold Page.remainder.
  rewrite bool_decide_eq_false_2 by (by intros ?%(f_equal this)).
  simpl. apply bool_decide_eq_true_2. by apply odd_not_twice.
Qed.

(** * The session life cycle *)

(** ** Terminal states *)

(** C1. Terminal states are never downgraded: when the exit handler of the
    stimulus process fires with a code other than zero while [status.json]
    holds a document whose state is [completed] or [aborted], the handler
    returns normally, leaves every file as it is and writes nothing. *)
Theorem exit_handler_never_downgrades cwd stderrBuffer (c : Z) w props :
  c ≠ 0%Z →
  files w !! statusPath cwd = Some (Json (JObj props)) →
  props !! "state" = Some (JStr "completed")
  ∨ props !! "state" = Some (JStr "aborted") →
  ∃ w', stimulus_on_exit cwd stderrBuffer (Some c) w = (Ok (), w')
    ∧ files w' = files w
    ∧ effects w' = effects w.
Proof.
  intros _ Hfile Hstate.
  destruct (stimulus_on_exit_terminal cwd stderrBuffer (Some c) w props Hfile Hstate)
    as [Hfiles Heffects].
  destruct (stimulus_on_exit_frame cwd stderrBuffer (Some c) w)
    as (w' & later & Hrun & _).
  exists w'. unfold exec in Hfiles, Heffects. rewrite Hrun in Hfiles, Heffects.
  by split_and!.
Qed.

Lemma exit_handler_never_downgrades_witness :
  let w := Samples.session (Some (Json (JObj Samples.finished))) in
  files w !! statusPath Samples.cwd = Some (Json (JObj Samples.finished))
  ∧ Samples.finished !! "state" = Some (JStr "completed")
  ∧ ∃ w', stimulus_on_exit Samples.cwd "Traceback" (Some 1%Z) w = (Ok (), w')
      ∧ files w' = files w
      ∧ effects w' = effects w.
Proof.
  intros w.
  assert (Hfile : files w !! statusPath Samples.cwd
                  = Some (Json (JObj Samples.finished)))
    by (vm_compute; reflexivity).
  assert (Hstate : Samples.finished !! "state" = Some (JStr "completed"))
    by (vm_compute; reflexivity).
  split_and!; [exact Hfile | exact Hstate |].
  apply (exit_handler_never_downgrades Samples.cwd "Traceback" 1 w
           Samples.finished); [lia | exact Hfile | left; exact Hstate].
Defined.

(** ** One session at a time *)

(** C2. While a spawned stimulus process is still tracked as alive, [POST]
    answers 409 with the error "A session is already running" and changes
    nothing: no file is written ([config.json] and the [status.json] of the
    running session stay as they are), no effect is logged and no variable
    of the module is assigned. *)
Theorem POST_conflict_changes_nothing cwd request settle w h :
  stimulusProcess w = Some h →
  killed h = false →
  POST cwd request settle w = (Ok conflict, w)
  ∧ status conflict = 409%nat
  ∧ body conflict = JObj {[ "error" := JStr "A session is already running" ]}.
Proof.
  intros Hstimulus Hkilled. split_and!; [|done..].
  unfold POST. run. rewrite Hstimulus. run. by rewrite Hkilled.
Qed.

Lemma POST_conflict_changes_nothing_witness :
  let w := Samples.session (Some (Json (JObj Samples.progress))) in
  stimulusProcess w = Some (Child 0 false)
  ∧ POST Samples.cwd (Json (Page.config_json Samples.config)) [] w
    = (Ok conflict, w).
Proof.
  intros w. split; [reflexivity|].
  apply (POST_conflict_changes_nothing Samples.cwd
           (Json (Page.config_json Samples.config)) [] w (Child 0 false));
    reflexivity.
Defined.

(** ** Stopping keeps the progress *)

(** C3. [DELETE] always answers with success. When a live session is
    tracked and [status.json] holds a document that is not terminal,
    [DELETE] rewrites it with state [aborted] and phase [none] and every
    other field as before the stop ([current_trial], [total_trials],
    [current_block], [total_blocks], [bad_trials], [elapsed_seconds],
    [output_file] among them), and [feedback.json] is gone. *)
Theorem DELETE_preserves_progress cwd w h props :
  stimulusProcess w = Some h →
  killed h = false →
  files w !! statusPath cwd = Some (Json (JObj props)) →
  props !! "state" ≠ Some (JStr "aborted") →
  props !! "state" ≠ Some (JStr "completed") →
  (∀ w0, (DELETE cwd w0).1 = Ok success)
  ∧ ∃ w' props',
      DELETE cwd w = (Ok success, w')
      ∧ files w' !! statusPath cwd = Some (Json (JObj props'))
      ∧ props' !! "state" = Some (JStr "aborted")
      ∧ props' !! "phase" = Some (JStr "none")
      ∧ (∀ key, key ≠ "state" → key ≠ "phase" → props' !! key = props !! key)
      ∧ files w' !! feedbackPath cwd = None
      ∧ ∀ file, file ≠ statusPath cwd → file ≠ feedbackPath cwd →
                files w' !! file = files w !! file.
Proof.
  intros Hstimulus Hkilled Hfile Haborted Hcompleted. split.
  { intros w0. by destruct (DELETE_total cwd w0) as [w' ->]. }
  destruct (DELETE_live_document cwd w h props) as (w' & Hrun & Hfiles & _);
    [done..|].
  destruct (stopped_fields props) as (props' & Hstopped & Hstate & Hphase & Hrest).
  exists w', props'. rewrite Hfiles, Hstopped. split_and!; try done.
  - by rewrite lookup_insert_eq.
  - rewrite lookup_insert_ne by (symmetry; apply feedbackPath_not_statusPath).
    by rewrite lookup_delete_eq.
  - intros file Hstatus Hfeedback.
    by rewrite lookup_insert_ne, lookup_delete_ne.
Qed.

Lemma DELETE_preserves_progress_witness :
  let w := Samples.session (Some (Json (JObj Samples.progress))) in
  files w !! statusPath Samples.cwd = Some (Json (JObj Samples.progress))
  ∧ Samples.progress !! "state" = Some (JStr "running")
  ∧ ∃ w' props',
      DELETE Samples.cwd w = (Ok success, w')
      ∧ files w' !! statusPath Samples.cwd = Some (Json (JObj props'))
      ∧ props' !! "state" = Some (JStr "aborted")
      ∧ props' !! "phase" = Some (JStr "none")
      ∧ (∀ key, key ≠ "state" → key ≠ "phase" →
                props' !! key = Samples.progress !! key)
      ∧ files w' !! feedbackPath Samples.cwd = None
      ∧ ∀ file, file ≠ statusPath Samples.cwd →
                file ≠ feedbackPath Samples.cwd →
                files w' !! file = files w !! file.
Proof.
  intros w.
  assert (Hfile : files w !! statusPath Samples.cwd
                  = Some (Json (JObj Samples.progress)))
    by (vm_compute; reflexivity).
  assert (Hstate : Samples.progress !! "state" = Some (JStr "running"))
    by (vm_compute; reflexivity).
  split_and!; [exact Hfile | exact Hstate |].
  apply (DELETE_preserves_progress Samples.cwd w (Child 0 false)
           Samples.progress);
    [reflexivity | reflexivity | exact Hfile | | ];
    rewrite Hstate; discriminate.
Defined.

(** ** Reconciliation on termination *)

Lemma terminal_true document :
  terminal document = true ↔
  document !! "state" = Some (JStr "completed")
  ∨ document !! "state" = Some (JStr "aborted").
Proof.
  unfold terminal. rewrite orb_true_iff. unfold is_string.
  destruct (document !! "state") as [[| | |s| |]|];
    rewrite ?bool_decide_eq_true; split; intros [Hs | Hs];
    try discriminate; simplify_eq; auto.
Qed.

Lemma terminal_false document :
  terminal document = false ↔
  document !! "state" ≠ Some (JStr "completed")
  ∧ document !! "state" ≠ Some (JStr "aborted").
Proof.
  rewrite <- not_true_iff_false, terminal_true. tauto.
Qed.

Lemma fallback_status_fields :
  fallback_status
  = JObj {[ "state" := JStr "aborted"; "phase" := JStr "none";
            "current_trial" := num 0; "total_trials" := num 0;
            "current_block" := num 0; "total_blocks" := num 0;
            "bad_trials" := num 0; "elapsed_seconds" := num 0;
            "output_file" := JStr "" ]}.
Proof. reflexivity. Qed.

Lemma num_inj (a b : Z) : num a = num b → a = b.
Proof.
  unfold num. intros Heq.
  assert (Hnum : Q2Qc (inject_Z a) = Q2Qc (inject_Z b)) by congruence.
  apply Q2Qc_eq_iff in Hnum. unfold Qeq in Hnum. simpl in Hnum. lia.
Qed.

(** C4, as stated, fails on the exit path: a stimulus process that exits
    with code 1 in the middle of a block leaves a status document whose
    [current_trial] is 0, not the 25 that was on record. *)
Lemma exit_handler_resets_counters :
  let w := Samples.session (Some (Json (JObj Samples.progress))) in
  ¬ (∀ w', stimulus_on_exit Samples.cwd "Traceback" (Some 1%Z) w = (Ok (), w') →
           ∃ props',
             files w' !! statusPath Samples.cwd = Some (Json (JObj props'))
             ∧ ∀ key, key ≠ "state" → key ≠ "phase" →
                      props' !! key = Samples.progress !! key).
Proof.
  intros w Hclaim.
  destruct (stimulus_on_exit_frame Samples.cwd "Traceback" (Some 1%Z) w)
    as (w' & later & Hrun & _).
  destruct (Hclaim w' Hrun) as (props' & Hfile & Hkeep).
  assert (Hfiles : files w' = <[statusPath Samples.cwd := Json fallback_status]> (files w)).
  { change w' with (w', ()).1. change (w', ()).1 with (Ok (), w').2.
    rewrite <- Hrun.
    by apply (stimulus_on_exit_live Samples.cwd "Traceback" 1 w Samples.progress). }
  rewrite Hfiles, lookup_insert_eq in Hfile. injection Hfile as <-.
  assert (Hzero : Some (num 0) = Some (num 25))
    by (apply (Hkeep "current_trial"); discriminate).
  assert (Hnum : num 0 = num 25) by congruence.
  by apply num_inj in Hnum.
Qed.

(** C4, amended. The next status document is a function, [reconcile], of
    the previous document and the cause of the termination. On both paths a
    document whose state is [completed] or [aborted] stays as it is. Over a
    document that is not terminal, an explicit stop of a live session sets
    state [aborted] and phase [none] and keeps every other field, whereas an
    exit with a code other than zero replaces the document by the fallback
    document: state [aborted], phase [none], every counter 0 and an empty
    [output_file]. *)
Theorem termination_reconciles_status cwd w props :
  files w !! statusPath cwd = Some (Json (JObj props)) →
  (∀ h, stimulusProcess w = Some h → killed h = false →
        ∃ w', DELETE cwd w = (Ok success, w')
          ∧ files w' !! statusPath cwd
            = Some (Json (reconcile ExplicitStop props)))
  ∧ (∀ stderrBuffer c, c ≠ 0%Z →
        ∃ w', stimulus_on_exit cwd stderrBuffer (Some c) w = (Ok (), w')
          ∧ files w' !! statusPath cwd
            = Some (Json (reconcile (AbnormalExit c) props)))
  ∧ (terminal props = true → ∀ cause, reconcile cause props = JObj props)
  ∧ (terminal props = false →
        ∃ props', reconcile ExplicitStop props = JObj props'
          ∧ props' !! "state" = Some (JStr "aborted")
          ∧ props' !! "phase" = Some (JStr "none")
          ∧ ∀ key, key ≠ "state" → key ≠ "phase" →
                   props' !! key = props !! key)
  ∧ (terminal props = false →
        ∀ c, reconcile (AbnormalExit c) props
             = JObj {[ "state" := JStr "aborted"; "phase" := JStr "none";
                       "current_trial" := num 0; "total_trials" := num 0;
                       "current_block" := num 0; "total_blocks" := num 0;
                       "bad_trials" := num 0; "elapsed_seconds" := num 0;
                       "output_file" := JStr "" ]}).
Proof.
  intros Hfile. unfold reconcile. split_and!.
  - intros h Hstimulus Hkilled.
    destruct (terminal props) eqn:Hterminal.
    + apply terminal_true in Hterminal.
      destruct (DELETE_terminal_document cwd w h props)
        as (w' & Hrun & Hfiles & _); [done..|].
      exists w'. split; [done|]. rewrite Hfiles.
      by rewrite lookup_delete_ne by apply feedbackPath_not_statusPath.
    + apply terminal_false in Hterminal as [Hcompleted Haborted].
      destruct (DELETE_live_document cwd w h props)
        as (w' & Hrun & Hfiles & _); [done..|].
      exists w'. split; [done|]. by rewrite Hfiles, lookup_insert_eq.
  - intros stderrBuffer c Hc.
    destruct (stimulus_on_exit_frame cwd stderrBuffer (Some c) w)
      as (w' & later & Hrun & _).
    exists w'. split; [done|].
    replace w' with (exec (stimulus_on_exit cwd stderrBuffer (Some c)) w)
      by (unfold exec; by rewrite Hrun).
    destruct (terminal props) eqn:Hterminal.
    + apply terminal_true in Hterminal.
      destruct (stimulus_on_exit_terminal cwd stderrBuffer (Some c) w props)
        as [-> _]; done.
    + apply terminal_false in Hterminal as [Hcompleted Haborted].
      rewrite (stimulus_on_exit_live cwd stderrBuffer c w props) by done.
      by rewrite lookup_insert_eq.
  - by intros ->.
  - intros ->. apply stopped_fields.
  - by intros ->.
Qed.

Lemma termination_reconciles_status_witness :
  let w := Samples.session (Some (Json (JObj Samples.progress))) in
  files w !! statusPath Samples.cwd = Some (Json (JObj Samples.progress))
  ∧ terminal Samples.progress = false
  ∧ (∃ w', DELETE Samples.cwd w = (Ok success, w')
       ∧ files w' !! statusPath Samples.cwd
         = Some (Json (reconcile ExplicitStop Samples.progress)))
  ∧ (∃ w', stimulus_on_exit Samples.cwd "Traceback" (Some 1%Z) w = (Ok (), w')
       ∧ files w' !! statusPath Samples.cwd
         = Some (Json (reconcile (AbnormalExit 1) Samples.progress))).
Proof.
  intros w.
  assert (Hfile : files w !! statusPath Samples.cwd
                  = Some (Json (JObj Samples.progress)))
    by (vm_compute; reflexivity).
  pose proof (termination_reconciles_status Samples.cwd w Samples.progress Hfile)
    as (Hstop & Hexit & _).
  split_and!; [exact Hfile | vm_compute; reflexivity | |].
  - apply (Hstop (Child 0 false)); reflexivity.
  - apply (Hexit "Traceback" 1%Z). lia.
Defined.

(** ** A fresh status for every session *)

(** C5. For a configuration that carries [blocks.trials_per_block] and
    [blocks.num_blocks], and with no session running, [POST] writes the
    configuration to [config.json], then a fresh document to [status.json]
    (state [practice], phase [none], the two totals copied from the
    configuration, every counter 0, an empty [output_file]) and only then
    spawns the two processes. Whatever happens during the wait, nothing but
    the fallback status is written afterwards, and [config.json] stays. *)
Theorem POST_writes_before_spawning cwd props blocks (t n : json) settle w :
  alive (stimulusProcess w) = false →
  props !! "blocks" = Some (JObj blocks) →
  blocks !! "trials_per_block" = Some t →
  blocks !! "num_blocks" = Some n →
  let config := JObj props in
  let fresh :=
    JObj {[ "state" := JStr "practice"; "phase" := JStr "none";
            "current_trial" := num 0; "total_trials" := t;
            "current_block" := num 0; "total_blocks" := n;
            "bad_trials" := num 0; "elapsed_seconds" := num 0;
            "output_file" := JStr "" ]} in
  ∃ launched res w' later,
    POST_launch cwd (Json config) w = (Ok (), launched)
    ∧ files launched
      = <[statusPath cwd := Json fresh]>
          (<[configPath cwd := Json config]> (files w))
    ∧ effects launched
      = (effects w
         ++ [ Mkdir (tmpDir cwd);
              Mkdir (dataDir cwd);
              WriteFile (configPath cwd) (Json config);
              WriteFile (statusPath cwd) (Json fresh);
              Spawn (spawned w) "python"
                [path_string (scriptPath cwd); "--config";
                 path_string (configPath cwd)];
              Spawn (S (spawned w)) "python"
                [path_string (feedbackScriptPath cwd); "--config";
                 path_string (configPath cwd)] ])%list
    ∧ POST cwd (Json config) settle w = (Ok res, w')
    ∧ effects w' = (effects launched ++ later)%list
    ∧ only_fallback_writes cwd later
    ∧ files w' !! configPath cwd = Some (Json config).
Proof.
  intros Hidle Hblocks Ht Hn config fresh.
  pose proof (POST_launch_ok cwd props blocks t n w Hblocks Ht Hn) as Hlaunch.
  rewrite initial_status_fields in Hlaunch. fold config fresh in Hlaunch.
  eexists. unfold POST. unfold mbind at 1, M_bind, read at 1. rewrite Hidle.
  unfold try_catch, mbind at 1, M_bind. rewrite Hlaunch.
  unfold mbind at 1, M_bind.
  match goal with
  | |- context [settle_window cwd settle "" ?launched] =>
      destruct (settle_window_frame cwd settle "" launched)
        as (buffer & w' & later & -> & Heffects & Hlater & _ & Hfiles)
  end.
  assert (Hreport : ∃ res, POST_report buffer w' = (Ok res, w')).
  { unfold POST_report. run. destruct (processExited w'); by eexists. }
  destruct Hreport as [res ->].
  exists res, w', later. split_and!; try done.
  rewrite Hfiles by apply configPath_not_statusPath. simpl.
  rewrite lookup_insert_ne by (symmetry; apply configPath_not_statusPath).
  by rewrite lookup_insert_eq.
Qed.

Lemma POST_writes_before_spawning_witness :
  let props := spread (Page.config_json Samples.config) in
  let blocks : gmap string json :=
    {[ "num_blocks" := num 2; "trials_per_block" := num 50;
       "practice_trials" := num 10; "break_duration" := num 120 ]} in
  alive (stimulusProcess Samples.fresh) = false
  ∧ props !! "blocks" = Some (JObj blocks)
  ∧ blocks !! "trials_per_block" = Some (num 50)
  ∧ blocks !! "num_blocks" = Some (num 2)
  ∧ ∃ launched res w',
      POST_launch Samples.cwd (Json (JObj props)) Samples.fresh
      = (Ok (), launched)
      ∧ POST Samples.cwd (Json (JObj props)) [] Samples.fresh = (Ok res, w')
      ∧ files w' !! configPath Samples.cwd = Some (Json (JObj props)).
Proof.
  intros props blocks.
  assert (Hblocks : props !! "blocks" = Some (JObj blocks))
    by (vm_compute; reflexivity).
  assert (Ht : blocks !! "trials_per_block" = Some (num 50))
    by (vm_compute; reflexivity).
  assert (Hn : blocks !! "num_blocks" = Some (num 2))
    by (vm_compute; reflexivity).
  split_and!; [reflexivity | exact Hblocks | exact Ht | exact Hn |].
  destruct (POST_writes_before_spawning Samples.cwd props blocks (num 50) (num 2)
              [] Samples.fresh eq_refl Hblocks Ht Hn)
    as (launched & res & w' & later & Hlaunch & _ & _ & Hrun & _ & _ & Hconfig).
  by exists launched, res, w'.
Defined.

(** ** Validation of the configuration *)

(** C6, as stated, fails on the route: [POST] performs no validation. Given
    51 trials per block, or a rest range from 3 to 3, it writes both
    documents, spawns the stimulus process and answers with success. *)
Lemma POST_accepts_invalid_config :
  Page.trials_per_block (Page.blocks Samples.unbalanced) = Q2Qc (inject_Z 51)
  ∧ Z.odd 51 = true
  ∧ (Page.rest_max (Page.timing Samples.restless)
     ≤ Page.rest_min (Page.timing Samples.restless))%Qc
  ∧ ∀ c, c = Samples.unbalanced ∨ c = Samples.restless →
      ∃ w', POST Samples.cwd (Json (Page.config_json c)) [] Samples.fresh
            = (Ok success, w')
        ∧ Spawn 0 "python"
            [path_string (scriptPath Samples.cwd); "--config";
             path_string (configPath Samples.cwd)] ∈ effects w'
        ∧ files w' !! configPath Samples.cwd = Some (Json (Page.config_json c))
        ∧ is_Some (files w' !! statusPath Samples.cwd).
Proof.
  split_and!; [reflexivity | reflexivity | by vm_compute |].
  intros c Hc.
  assert (Hblocks : ∃ blocks t n,
            spread (Page.config_json c) !! "blocks" = Some (JObj blocks)
            ∧ blocks !! "trials_per_block" = Some t
            ∧ blocks !! "num_blocks" = Some n).
  { destruct Hc as [-> | ->]; eexists _, _, _; split_and!;
      vm_compute; reflexivity. }
  destruct Hblocks as (blocks & t & n & Hblocks & Ht & Hn).
  destruct (POST_quiet Samples.cwd (spread (Page.config_json c)) blocks t n
              Samples.fresh eq_refl Hblocks Ht Hn)
    as (w' & Hrun & Hfiles & Heffects & _).
  exists w'. split_and!; [exact Hrun | | |].
  - rewrite Heffects. apply list_elem_of_In. simpl. tauto.
  - rewrite Hfiles.
    rewrite lookup_insert_ne by (symmetry; apply configPath_not_statusPath).
    by rewrite lookup_insert_eq.
  - rewrite Hfiles, lookup_insert_eq. by eexists.
Qed.

(** C6, amended. The validation is the one of the start handler of the
    page: for a configuration whose [trials_per_block] is an odd integer, or
    whose [rest_min] is not below [rest_max], [handleStart] sets a
    validation error and returns without issuing a start request, so that
    through it no process is spawned and nothing is written. *)
Theorem handleStart_rejects_invalid_config fetch_start h w :
  (∃ n, Page.trials_per_block (Page.blocks (Page.config h)) = Q2Qc (inject_Z n)
        ∧ Z.odd n = true)
  ∨ (Page.rest_max (Page.timing (Page.config h))
     ≤ Page.rest_min (Page.timing (Page.config h)))%Qc →
  ∃ reason : string,
    Page.handleStart fetch_start h w
    = (Page.setError (Some (JStr reason)) h, w, [])
    ∧ reason ∈ [ "Participant ID is required";
                 "Trials per block must be even (balanced left/right)";
                 "Rest Min must be less than Rest Max" ].
Proof.
  intros Hinvalid. unfold Page.handleStart.
  destruct (bool_decide (Page.trim _ = [])); [eexists; split; [done|repeat constructor]|].
  destruct Hinvalid as [(n & -> & Hodd) | Hrest].
  - rewrite remainder_odd by done. eexists; split; [done|repeat constructor].
  - destruct (Page.nonzero _); [eexists; split; [done|repeat constructor]|].
    rewrite bool_decide_eq_true_2 by done. eexists; split; [done|repeat constructor].
Qed.

Lemma handleStart_rejects_invalid_config_witness :
  Page.trials_per_block (Page.blocks Samples.unbalanced) = Q2Qc (inject_Z 51)
  ∧ Z.odd 51 = true
  ∧ ∃ reason : string,
      Page.handleStart Samples.endpoint (Samples.page Samples.unbalanced)
        Samples.fresh
      = (Page.setError (Some (JStr reason)) (Samples.page Samples.unbalanced),
         Samples.fresh, [])
      ∧ reason ∈ [ "Participant ID is required";
                   "Trials per block must be even (balanced left/right)";
                   "Rest Min must be less than Rest Max" ].
Proof.
  split_and!; [reflexivity | reflexivity |].
  apply (handleStart_rejects_invalid_config Samples.endpoint
           (Samples.page Samples.unbalanced) Samples.fresh).
  left. exists 51%Z. split; reflexivity.
Defined.

(** C10. For a configuration whose [participant_id] is empty or holds white
    space only, that is, code units among the twenty-five that [trim]
    removes (the ideographic space, the em space and the byte order mark
    as much as the space), [handleStart] sets the error "Participant ID is
    required" and returns without issuing a start request: the world of
    the server is as before, so no process is spawned and no document is
    written. *)
Theorem handleStart_requires_participant fetch_start h w :
  Forall (λ c, c ∈ Page.white_space) (Page.participant_id (Page.config h)) →
  Page.handleStart fetch_start h w
  = (Page.setError (Some (JStr "Participant ID is required")) h, w, []).
Proof.
  intros Hwhite. unfold Page.handleStart.
  rewrite trim_white_space, bool_decide_eq_true_2; [done..|].
  eapply Forall_impl; [exact Hwhite|]. intros c Hc.
  by apply bool_decide_eq_true_2.
Qed.

Lemma handleStart_requires_participant_witness :
  Page.participant_id Samples.anonymous
  = [0x0020; 0x3000; 0x2003; 0xFEFF; 0x0009]%N
  ∧ Page.handleStart Samples.endpoint (Samples.page Samples.anonymous)
      Samples.fresh
    = (Page.setError (Some (JStr "Participant ID is required"))
         (Samples.page Samples.anonymous),
       Samples.fresh, []).
Proof.
  split; [reflexivity|].
  apply (handleStart_requires_participant Samples.endpoint
           (Samples.page Samples.anonymous) Samples.fresh).
  apply (bool_decide_unpack _). vm_compute. exact I.
Defined.

(** ** Reading documents that are missing or broken *)

(** C7, as stated, fails for a file that is present but does not parse: the
    status route and the feedback route both answer 500 with an error
    body, not with the default document. *)
Lemma reads_fail_on_malformed_document :
  let w :=
    with_files
      {[ StatusRoute.statusPath Samples.cwd
           := Malformed "Unexpected end of JSON input";
         FeedbackRoute.feedbackPath Samples.cwd
           := Malformed "Unexpected end of JSON input" ]}
      Samples.fresh in
  ∃ status_reply feedback_reply,
    StatusRoute.GET Samples.cwd w = (Ok status_reply, w)
    ∧ FeedbackRoute.GET Samples.cwd w = (Ok feedback_reply, w)
    ∧ status status_reply = 500%nat
    ∧ status feedback_reply = 500%nat
    ∧ body status_reply = JObj {[ "error" := JStr "Failed to read status" ]}
    ∧ body feedback_reply = JObj {[ "error" := JStr "Failed to read feedback" ]}
    ∧ status_reply ≠ NextResponse_json StatusRoute.idle_status 200
    ∧ feedback_reply ≠ NextResponse_json FeedbackRoute.DISCONNECTED_STATE 200.
Proof.
  intros w. exists StatusRoute.read_failure, FeedbackRoute.read_failure.
  split_and!;
    [ by apply status_GET_malformed with (msg := "Unexpected end of JSON input")
    | by apply feedback_GET_malformed with (msg := "Unexpected end of JSON input")
    | done.. ].
Qed.

(** C7, amended. A read of the status or of the feedback document changes
    nothing and always answers. When the file is absent the answer is the
    default for the document, with status 200: the idle status with every
    counter 0, or the disconnected feedback snapshot with [connected] false
    and the error "Feedback not running". When the file is present but
    does not parse, the answer is an error response with status 500. *)
Theorem reads_default_when_absent cwd w :
  (files w !! StatusRoute.statusPath cwd = None →
   StatusRoute.GET cwd w
   = (Ok (Response 200
            (JObj {[ "state" := JStr "idle"; "phase" := JStr "none";
                     "current_trial" := num 0; "total_trials" := num 0;
                     "current_block" := num 0; "total_blocks" := num 0;
                     "bad_trials" := num 0; "elapsed_seconds" := num 0;
                     "output_file" := JStr "" ]})), w))
  ∧ (files w !! FeedbackRoute.feedbackPath cwd = None →
     FeedbackRoute.GET cwd w
     = (Ok (Response 200
              (JObj {[ "timestamp" := num 0; "connected" := JBool false;
                       "stream_name" := JNull;
                       "channels" :=
                         JObj {[ "C3" := JObj {[ "mu_power" := num 0;
                                                 "beta_power" := num 0 ]};
                                 "C4" := JObj {[ "mu_power" := num 0;
                                                 "beta_power" := num 0 ]} ]};
                       "laterality_index" := num 0;
                       "mu_suppression" := num 0;
                       "error" := JStr "Feedback not running" ]})), w))
  ∧ (∀ msg, files w !! StatusRoute.statusPath cwd = Some (Malformed msg) →
       StatusRoute.GET cwd w
       = (Ok (Response 500 (JObj {[ "error" := JStr "Failed to read status" ]})),
          w))
  ∧ (∀ msg, files w !! FeedbackRoute.feedbackPath cwd = Some (Malformed msg) →
       FeedbackRoute.GET cwd w
       = (Ok (Response 500 (JObj {[ "error" := JStr "Failed to read feedback" ]})),
          w))
  ∧ (∃ reply, StatusRoute.GET cwd w = (Ok reply, w))
  ∧ (∃ reply, FeedbackRoute.GET cwd w = (Ok reply, w)).
Proof.
  split_and!.
  - intros Hfile. by rewrite status_GET_absent.
  - intros Hfile. by rewrite feedback_GET_absent.
  - intros msg Hfile. by rewrite (status_GET_malformed _ _ msg).
  - intros msg Hfile. by rewrite (feedback_GET_malformed _ _ msg).
  - destruct (files w !! StatusRoute.statusPath cwd) as [[document|msg]|] eqn:Hfile.
    + rewrite (status_GET_document _ _ document) by done. by eexists.
    + rewrite (status_GET_malformed _ _ msg) by done. by eexists.
    + rewrite status_GET_absent by done. by eexists.
  - destruct (files w !! FeedbackRoute.feedbackPath cwd)
      as [[document|msg]|] eqn:Hfile.
    + rewrite (feedback_GET_document _ _ document) by done. by eexists.
    + rewrite (feedback_GET_malformed _ _ msg) by done. by eexists.
    + rewrite feedback_GET_absent by done. by eexists.
Qed.

Lemma reads_default_when_absent_witness :
  files Samples.fresh !! StatusRoute.statusPath Samples.cwd = None
  ∧ StatusRoute.GET Samples.cwd Samples.fresh
    = (Ok (Response 200
             (JObj {[ "state" := JStr "idle"; "phase" := JStr "none";
                      "current_trial" := num 0; "total_trials" := num 0;
                      "current_block" := num 0; "total_blocks" := num 0;
                      "bad_trials" := num 0; "elapsed_seconds" := num 0;
                      "output_file" := JStr "" ]})), Samples.fresh).
Proof.
  split; [reflexivity|].
  apply (reads_default_when_absent Samples.cwd Samples.fresh). reflexivity.
Defined.

(** ** A start that fails half way *)

(** C8. There is a request body that [request.json()] accepts, the empty
    object, for which [POST] answers 500 and has by then overwritten
    [config.json]; nothing was spawned and [status.json] is as before. *)
Theorem POST_failure_is_not_atomic :
  ∃ request config w res w',
    JSON_parse request = Ok config
    ∧ POST Samples.cwd request [] w = (Ok res, w')
    ∧ status res = 500%nat
    ∧ files w !! configPath Samples.cwd
      = Some (Json (Page.config_json Samples.config))
    ∧ files w' !! configPath Samples.cwd = Some request
    ∧ files w' !! configPath Samples.cwd ≠ files w !! configPath Samples.cwd
    ∧ files w' !! statusPath Samples.cwd = files w !! statusPath Samples.cwd
    ∧ effects w'
      = [ Mkdir (tmpDir Samples.cwd); Mkdir (dataDir Samples.cwd);
          WriteFile (configPath Samples.cwd) request ].
Proof.
  exists (Json (JObj ∅)), (JObj ∅),
         (Samples.at_rest (Some (Json (JObj Samples.finished)))).
  eexists _, _. split_and!; [done | | | | | | |].
  { unfold POST. unfold mbind at 1, M_bind, read at 1. simpl.
    unfold try_catch, mbind at 1, M_bind.
    rewrite POST_launch_without_blocks by done. reflexivity. }
  all: try (vm_compute; reflexivity).
  vm_compute. discriminate.
Qed.

(** ** Stopping without a readable status *)

(** C9. When [DELETE] is called with a live stimulus process while
    [status.json] is absent or does not parse, it answers with success,
    sends the signal to the stimulus process and to the feedback process,
    clears both handles and removes [feedback.json], and writes nothing:
    [status.json] is neither created nor changed. *)
Theorem DELETE_without_status_writes_nothing cwd w h :
  stimulusProcess w = Some h →
  killed h = false →
  (∀ f, feedbackProcess w = Some f → killed f = false) →
  files w !! statusPath cwd = None
  ∨ (∃ msg, files w !! statusPath cwd = Some (Malformed msg)) →
  ∃ w' later,
    DELETE cwd w = (Ok success, w')
    ∧ stimulusProcess w' = None
    ∧ feedbackProcess w' = None
    ∧ effects w' = (effects w ++ later)%list
    ∧ Kill (pid h) ∈ later
    ∧ (∀ f, feedbackProcess w = Some f → Kill (pid f) ∈ later)
    ∧ (∀ file data, WriteFile file data ∉ later)
    ∧ files w' = delete (feedbackPath cwd) (files w)
    ∧ files w' !! statusPath cwd = files w !! statusPath cwd
    ∧ files w' !! feedbackPath cwd = None.
Proof.
  intros Hstimulus Hkilled Hfeedback Hfile.
  destruct (DELETE_unreadable_document cwd w h Hstimulus Hkilled Hfile)
    as (w' & Hrun & Hfiles & Heffects & Hcleared & Hhandle).
  exists w', (stop_effects cwd w).
  split_and!; try done.
  - rewrite Hhandle. destruct (feedbackProcess w) as [f|] eqn:Hf; [|done].
    unfold alive. by rewrite (Hfeedback f).
  - unfold stop_effects. rewrite Hstimulus. by constructor.
  - intros f Hf. unfold stop_effects. rewrite Hstimulus, Hf. unfold alive.
    rewrite (Hfeedback f) by done. simpl. by do 2 constructor.
  - intros file data Hwrite. apply list_elem_of_In in Hwrite.
    unfold stop_effects in Hwrite. rewrite Hstimulus in Hwrite.
    destruct (alive (feedbackProcess w)), (feedbackProcess w),
      (files w !! feedbackPath cwd); simpl in Hwrite;
      intuition discriminate.
  - rewrite Hfiles.
    by rewrite lookup_delete_ne by apply feedbackPath_not_statusPath.
  - by rewrite Hfiles, lookup_delete_eq.
Qed.

Lemma DELETE_without_status_writes_nothing_witness :
  let w := Samples.session (Some (Malformed "Unexpected end of JSON input")) in
  files w !! statusPath Samples.cwd
  = Some (Malformed "Unexpected end of JSON input")
  ∧ ∃ w' later,
      DELETE Samples.cwd w = (Ok success, w')
      ∧ stimulusProcess w' = None
      ∧ feedbackProcess w' = None
      ∧ effects w' = (effects w ++ later)%list
      ∧ Kill 0 ∈ later
      ∧ (∀ file data, WriteFile file data ∉ later)
      ∧ files w' !! statusPath Samples.cwd = files w !! statusPath Samples.cwd.
Proof.
  intros w.
  assert (Hfile : files w !! statusPath Samples.cwd
                  = Some (Malformed "Unexpected end of JSON input"))
    by (vm_compute; reflexivity).
  split; [exact Hfile|].
  destruct (DELETE_without_status_writes_nothing Samples.cwd w (Child 0 false))
    as (w' & later & Hrun & Hs & Hf & Heff & Hkill & _ & Hwrites & _ & Hstatus & _).
  - reflexivity.
  - reflexivity.
  - intros f [= <-]. reflexivity.
  - right. eexists. exact Hfile.
  - exists w', later. by split_and!.
Defined.

(** ** Tracked handles are never flagged *)

Lemma POST_launch_handles cwd request w :
  match POST_launch cwd request w with
  | (Ok _, w') =>
      stimulusProcess w' = Some (Child (spawned w) false)
      ∧ feedbackProcess w' = Some (Child (S (spawned w)) false)
  | (Throw _, w') =>
      stimulusProcess w' = stimulusProcess w
      ∧ feedbackProcess w' = feedbackProcess w
  end.
Proof.
  unfold POST_launch. open_world w.
  destruct request as [config|msg]; run; [|done].
  destruct config as [| | | | |props]; run; try done.
  destruct (props !! "blocks") as [[| | | | |blocks]|]; run; done.
Qed.

Lemma settle_window_handles cwd events : ∀ stderrBuffer w,
  handles_unflagged w →
  handles_unflagged (settle_window cwd events stderrBuffer w).2.
Proof.
  induction events as [|event events IH]; intros stderrBuffer w Hw; [done|].
  assert (Hcleared : ∀ w1,
    (stimulusProcess w1 = stimulusProcess w ∨ stimulusProcess w1 = None) →
    (feedbackProcess w1 = feedbackProcess w ∨ feedbackProcess w1 = None) →
    handles_unflagged w1).
  { intros w1 Hs Hf h [Hh | Hh]; apply Hw; [left | right];
      destruct Hs, Hf; congruence. }
  destruct event as [[data|data|code|msg] | [data|data|code|msg]];
    cbn [settle_window].
  3: { destruct (stimulus_on_exit_frame cwd stderrBuffer code w)
         as (w1 & later & Hrun & _ & _ & _ & _ & Hs & Hf).
       unfold mbind at 1, M_bind, modify, exec. rewrite Hrun. cbn [snd].
       apply IH, Hcleared; auto. }
  all: try (unfold mbind at 1, M_bind, modify, exec; cbn [snd]).
  all: apply IH; try done.
  all: apply Hcleared; destruct w; run; auto.
Qed.

(** The handles the module tracks are handles whose [killed] flag is not
    set: this holds when the server comes up and is kept by every route and
    by every handler. *)
Lemma handles_unflagged_invariant cwd :
  handles_unflagged (World ∅ None None None false 0 [])
  ∧ (∀ request settle w,
       handles_unflagged w → handles_unflagged (POST cwd request settle w).2)
  ∧ (∀ w, handles_unflagged w → handles_unflagged (DELETE cwd w).2)
  ∧ (∀ stderrBuffer code w,
       handles_unflagged w →
       handles_unflagged (stimulus_on_exit cwd stderrBuffer code w).2)
  ∧ (∀ msg w,
       handles_unflagged w → handles_unflagged (stimulus_on_error msg w).2)
  ∧ (∀ w, handles_unflagged w → handles_unflagged (feedback_on_exit w).2)
  ∧ (∀ msg w,
       handles_unflagged w → handles_unflagged (feedback_on_error msg w).2).
Proof.
  assert (Hcleared : ∀ w w1,
    handles_unflagged w →
    (stimulusProcess w1 = stimulusProcess w ∨ stimulusProcess w1 = None) →
    (feedbackProcess w1 = feedbackProcess w ∨ feedbackProcess w1 = None) →
    handles_unflagged w1).
  { intros w w1 Hw Hs Hf h [Hh | Hh]; apply Hw; [left | right];
      destruct Hs, Hf; congruence. }
  split_and!.
  - by intros h [? | ?].
  - intros request settle w Hw. unfold POST.
    unfold mbind at 1, M_bind, read at 1.
    destruct (alive (stimulusProcess w)); [done|].
    unfold try_catch, mbind at 1, M_bind.
    pose proof (POST_launch_handles cwd request w) as Hlaunch.
    destruct (POST_launch cwd request w) as [[[]|err] launched].
    + unfold mbind at 1, M_bind.
      pose proof (settle_window_handles cwd settle "" launched) as Hsettle.
      destruct (settle_window cwd settle "" launched) as [[buffer|err] w'].
      * unfold POST_report. run. simpl in Hsettle.
        destruct (processExited w'); simpl; apply Hsettle.
        all: intros h [Hh | Hh]; destruct Hlaunch; by simplify_eq.
      * simpl in *. apply Hsettle.
        intros h [Hh | Hh]; destruct Hlaunch; by simplify_eq.
    + simpl. destruct Hlaunch. eapply Hcleared; eauto.
  - intros w Hw.
    destruct (alive (stimulusProcess w)) eqn:Halive;
      [|by rewrite DELETE_idle].
    destruct (stimulusProcess w) as [h|] eqn:Hstimulus; [|done].
    assert (Hkilled : killed h = false) by (apply Hw; auto).
    assert (Hfeedback : ∀ w',
      stimulusProcess w' = None →
      feedbackProcess w'
      = (if alive (feedbackProcess w) then None else feedbackProcess w) →
      handles_unflagged w').
    { intros w' Hs Hf. apply (Hcleared w); auto.
      rewrite Hf. destruct (alive (feedbackProcess w)); auto. }
    destruct (files w !! statusPath cwd) as [[document|msg]|] eqn:Hfile.
    2: { destruct (DELETE_unreadable_document cwd w h)
           as (w' & -> & _ & _ & Hs & Hf); eauto. }
    2: { destruct (DELETE_unreadable_document cwd w h)
           as (w' & -> & _ & _ & Hs & Hf); eauto. }
    destruct (DELETE_handles cwd w h Hstimulus Hkilled) as (w' & -> & Hs & Hf).
    by apply Hfeedback.
  - intros stderrBuffer code w Hw.
    destruct (stimulus_on_exit_frame cwd stderrBuffer code w)
      as (w1 & later & -> & _ & _ & _ & _ & Hs & Hf).
    eapply Hcleared; eauto.
  - intros msg w Hw. eapply Hcleared; eauto; destruct w; run; auto.
  - intros w Hw. eapply Hcleared; eauto; destruct w; run; auto.
  - intros msg w Hw. eapply Hcleared; eauto; destruct w; run; auto.
Qed.

(** ** A start that goes through *)

(** For the sample configuration the three checks of [handleStart] pass: one
    start request is issued, the route spawns both processes, and the page
    shows a running session without error. *)
Lemma handleStart_valid_config_starts :
  ∃ h' w',
    Page.handleStart Samples.endpoint (Samples.page Samples.config) Samples.fresh
    = (h', w', [Json (Page.config_json Samples.config)])
    ∧ Page.isRunning h' = true
    ∧ Page.starting h' = false
    ∧ Page.error h' = None
    ∧ effects w'
      = launch_effects Samples.cwd (Page.config_json Samples.config)
          (initial_status (Some (num 50)) (Some (num 2))) 0.
Proof.
  destruct (POST_quiet Samples.cwd (spread (Page.config_json Samples.config))
              {[ "num_blocks" := num 2; "trials_per_block" := num 50;
                 "practice_trials" := num 10; "break_duration" := num 120 ]}
              (num 50) (num 2) Samples.fresh)
    as (w' & Hrun & _ & Heffects & _); [reflexivity..|].
  eexists _, w'. unfold Page.handleStart.
  replace (bool_decide (Page.trim _ = [])) with false by reflexivity.
  replace (Page.nonzero _) with false by (vm_compute; reflexivity).
  replace (bool_decide (_ ≤ _)%Qc) with false by (vm_compute; reflexivity).
  unfold Samples.endpoint, Page.served.
  change (JSON_stringify ?j) with (Json j).
  change (Page.config (Samples.page Samples.config)) with Samples.config.
  change (Page.config_json Samples.config)
    with (JObj (spread (Page.config_json Samples.config))) at 1.
  rewrite Hrun. split_and!; try reflexivity. exact Heffects.
Qed.

(** ** A session from start to stop *)

(** Two blocks of fifty trials: the start succeeds and [status.json] shows
    the practice state with the totals of the configuration; once the
    stimulus process has reported trial 25, a read of the status returns
    that report; a stop then leaves the report with state [aborted] and
    phase [none], trial 25 still on record. *)
Lemma session_from_start_to_stop :
  ∃ started stopped_at,
    POST Samples.cwd (Json (Page.config_json Samples.config)) [] Samples.fresh
    = (Ok success, started)
    ∧ files started !! statusPath Samples.cwd
      = Some (Json (initial_status (Some (num 50)) (Some (num 2))))
    ∧ let reported :=
        with_files (<[statusPath Samples.cwd := Json (JObj Samples.progress)]>
                      (files started)) started in
      StatusRoute.GET Samples.cwd reported
      = (Ok (Response 200 (JObj Samples.progress)), reported)
      ∧ DELETE Samples.cwd reported = (Ok success, stopped_at)
      ∧ files stopped_at !! statusPath Samples.cwd
        = Some (Json (stopped Samples.progress))
      ∧ spread (stopped Samples.progress) !! "state" = Some (JStr "aborted")
      ∧ spread (stopped Samples.progress) !! "phase" = Some (JStr "none")
      ∧ spread (stopped Samples.progress) !! "current_trial" = Some (num 25).
Proof.
  destruct (POST_quiet Samples.cwd (spread (Page.config_json Samples.config))
              {[ "num_blocks" := num 2; "trials_per_block" := num 50;
                 "practice_trials" := num 10; "break_duration" := num 120 ]}
              (num 50) (num 2) Samples.fresh)
    as (started & Hrun & Hfiles & _ & Hhandle & _); [reflexivity..|].
  cbn [spawned Samples.fresh] in Hhandle.
  set (reported :=
         with_files (<[statusPath Samples.cwd := Json (JObj Samples.progress)]>
                       (files started)) started).
  assert (Hreport : files reported !! statusPath Samples.cwd
                    = Some (Json (JObj Samples.progress))).
  { subst reported. destruct started. run. by rewrite lookup_insert_eq. }
  destruct (DELETE_live_document Samples.cwd reported (Child 0 false)
              Samples.progress) as (stopped_at & Hstop & Hstopped & _).
  { subst reported. by destruct started. }
  { reflexivity. }
  { exact Hreport. }
  { by vm_compute. }
  { by vm_compute. }
  exists started, stopped_at.
  split; [exact Hrun|]. split; [by rewrite Hfiles, lookup_insert_eq|].
  cbv zeta. fold reported. split_and!.
  - apply status_GET_document. by rewrite status_route_path.
  - exact Hstop.
  - by rewrite Hstopped, lookup_insert_eq.
  - vm_compute; reflexivity.
  - vm_compute; reflexivity.
  - vm_compute; reflexivity.
Qed.

(** * Further properties of the routes *)

(** ** Strings *)

Lemma append_cons (x : Ascii.ascii) (a b : string) :
  String x a +:+ b = String x (a +:+ b).
Proof. reflexivity. Qed.

Lemma append_assoc (a b c : string) : (a +:+ b) +:+ c = a +:+ (b +:+ c).
Proof.
  induction a as [|x a IH]; [done|]. by rewrite !append_cons, IH.
Qed.

Lemma append_empty_r (a : string) : a +:+ "" = a.
Proof. induction a as [|x a IH]; [done|]. by rewrite append_cons, IH. Qed.

Lemma length_append (a b : string) :
  String.length (a +:+ b) = (String.length a + String.length b)%nat.
Proof.
  induction a as [|x a IH]; [done|]. rewrite append_cons. simpl. by rewrite IH.
Qed.

Lemma substring_all (s : string) (m : nat) :
  (String.length s ≤ m)%nat → String.substring 0 m s = s.
Proof.
  revert m. induction s as [|x s IH]; intros [|m] Hm; simpl in *;
    try done; try lia.
  rewrite IH; [done | lia].
Qed.

Lemma substring_tail (s : string) (k m : nat) :
  (k ≤ String.length s)%nat → (String.length s ≤ k + m)%nat →
  ∃ prefix, s = prefix +:+ String.substring k m s
            ∧ String.length prefix = k.
Proof.
  revert k. induction s as [|x s IH]; intros k Hk Hm.
  - exists "". destruct k, m; simpl in *; try done; lia.
  - destruct k as [|k].
    + exists "". by rewrite substring_all by lia.
    + destruct (IH k) as (prefix & Hs & Hlen); [simpl in *; lia..|].
      exists (String x prefix). rewrite append_cons.
      change (String.substring (S k) m (String x s))
        with (String.substring k m s).
      rewrite <- Hs. simpl. by rewrite Hlen.
Qed.

Lemma or_else_nonempty (a b : string) : b ≠ "" → or_else a b ≠ "".
Proof. unfold or_else. by case_bool_decide. Qed.

Lemma or_else_first (a b : string) : a ≠ "" → or_else a b = a.
Proof. intros Ha. unfold or_else. by rewrite bool_decide_eq_false_2. Qed.


(** X13. The tail that is kept of the standard error, [slice(-500)], is a
    suffix of the buffer, is the whole buffer when that has at most 500
    code units, and never has more than 500. *)
Theorem slice_last_suffix (n : nat) (s : string) :
  (∃ prefix, s = prefix +:+ slice_last n s)
  ∧ String.length (slice_last n s) = (n `min` String.length s)%nat
  ∧ ((String.length s ≤ n)%nat → slice_last n s = s).
Proof.
  unfold slice_last.
  destruct (substring_tail s (String.length s - n) n) as (prefix & Hs & Hlen);
    [lia..|].
  split_and!.
  - by exists prefix.
  - apply (f_equal String.length) in Hs. rewrite length_append, Hlen in Hs. lia.
  - intros Hn. replace (String.length s - n)%nat with 0%nat by lia.
    by apply substring_all.
Qed.

(** ** The wait, event by event *)

Lemma settle_window_app cwd before : ∀ after stderrBuffer w,
  settle_window cwd (before ++ after) stderrBuffer w
  = match settle_window cwd before stderrBuffer w with
    | (Ok buffer, w') => settle_window cwd after buffer w'
    | (Throw e, w') => (Throw e, w')
    end.
Proof.
  induction before as [|event before IH]; intros after stderrBuffer w; [done|].
  destruct event as [[data|data|code|msg] | [data|data|code|msg]];
    cbn [app settle_window]; try apply IH.
  all: unfold mbind at 1 3, M_bind, modify; apply IH.
Qed.

Lemma settle_window_chatter cwd events : ∀ stderrBuffer w,
  Forall (λ e, is_chatter e = true) events →
  settle_window cwd events stderrBuffer w
  = (Ok (stderrBuffer +:+ stderr_of events), after_chatter events w).
Proof.
  unfold after_chatter.
  induction events as [|event events IH]; intros stderrBuffer w Hquiet.
  { cbn. by rewrite append_empty_r. }
  apply Forall_cons in Hquiet as [Hevent Hquiet].
  destruct event as [[data|data|code|msg] | [data|data|code|msg]];
    try discriminate; cbn [settle_window stderr_of feedback_gone].
  - rewrite IH by done. by rewrite append_assoc.
  - by rewrite IH.
  - by rewrite IH.
  - by rewrite IH.
  - unfold mbind at 1, M_bind, modify. rewrite IH by done.
    destruct w, (feedback_gone events); by run.
  - unfold mbind at 1, M_bind, modify. rewrite IH by done.
    destruct w, (feedback_gone events); by run.
Qed.

(** ** The exit and error handlers, in full *)


Lemma stimulus_on_error_world msg w :
  stimulus_on_error msg w
  = (Ok (),
     World (files w) None (feedbackProcess w) (Some (launch_reason msg)) true
           (spawned w) (effects w)).
Proof. unfold stimulus_on_error. open_world w. by run. Qed.

(** ** Launching *)

Lemma initial_status_state total_trials total_blocks :
  ∃ props, initial_status total_trials total_blocks = JObj props
    ∧ props !! "state" = Some (JStr "practice")
    ∧ props !! "phase" = Some (JStr "none")
    ∧ props !! "total_trials" = total_trials
    ∧ props !! "total_blocks" = total_blocks
    ∧ terminal props = false.
Proof.
  eexists. split; [reflexivity|].
  destruct total_trials, total_blocks; by vm_compute.
Qed.

Lemma POST_launch_usable cwd config blocks w :
  config ≠ JNull → blocks_of config = Some blocks → blocks ≠ JNull →
  POST_launch cwd (Json config) w = (Ok (), launched cwd config blocks w).
Proof.
  intros Hconfig Hblocks Hnull. unfold POST_launch, launched. open_world w.
  destruct config as [| | | | |props]; try done.
  cbn [blocks_of] in Hblocks. run. rewrite Hblocks.
  destruct blocks as [| | | | |inner]; try done; run;
    by rewrite <- !app_assoc.
Qed.

Lemma POST_launch_unusable cwd config w :
  ¬ usable config →
  ∃ e, POST_launch cwd (Json config) w
       = (Throw e,
          World (<[configPath cwd := Json config]> (files w))
                (stimulusProcess w) (feedbackProcess w) (processError w)
                (processExited w) (spawned w)
                (effects w
                 ++ [Mkdir (tmpDir cwd); Mkdir (dataDir cwd);
                     WriteFile (configPath cwd) (Json config)])%list).
Proof.
  intros Hunusable. unfold POST_launch. open_world w.
  destruct config as [| | | | |props]; run;
    try (eexists; by rewrite <- !app_assoc).
  destruct (props !! "blocks") as [[| | | | |inner]|] eqn:Hblocks; run;
    try (eexists; by rewrite <- !app_assoc).
  all: exfalso; apply Hunusable; split; [done|]; eexists; by split.
Qed.

Lemma after_chatter_world events w :
  after_chatter events w
  = World (files w) (stimulusProcess w)
          (if feedback_gone events then None else feedbackProcess w)
          (processError w) (processExited w) (spawned w) (effects w).
Proof. unfold after_chatter. by destruct w, (feedback_gone events). Qed.

Lemma POST_report_exited stderrBuffer w reason :
  processExited w = true → processError w = Some reason → reason ≠ "" →
  POST_report stderrBuffer w = (Ok (failure reason), w).
Proof.
  intros Hexited Herror Hreason. unfold POST_report. run.
  rewrite Hexited, Herror. run. by rewrite or_else_first.
Qed.

Lemma POST_report_running stderrBuffer w :
  processExited w = false → POST_report stderrBuffer w = (Ok success, w).
Proof. intros Hexited. unfold POST_report. run. by rewrite Hexited. Qed.

Lemma POST_idle cwd request settle w :
  alive (stimulusProcess w) = false →
  POST cwd request settle w
  = match POST_launch cwd request w with
    | (Ok _, started) =>
        match settle_window cwd settle "" started with
        | (Ok stderrBuffer, settled) => POST_report stderrBuffer settled
        | (Throw e, settled) => (Ok (failure (message e)), settled)
        end
    | (Throw e, w') => (Ok (failure (message e)), w')
    end.
Proof.
  intros Hidle. unfold POST. unfold mbind at 1, M_bind, read at 1.
  rewrite Hidle. unfold try_catch, mbind at 1, M_bind.
  destruct (POST_launch cwd request w) as [[[]|e] started]; [|done].
  unfold mbind at 1, M_bind.
  destruct (settle_window cwd settle "" started) as [[buffer|e] settled];
    [|done].
  unfold POST_report. run. by destruct (processExited settled).
Qed.

(** ** The answers of [POST] *)

(** X1. Whatever the body of the request and whatever the children do
    during the wait, [POST] returns a response and the response is one of
    three: the conflict (409), the success (200), or a failure (500)
    carrying a reason. *)
Theorem POST_always_answers cwd request settle w :
  ∃ res w',
    POST cwd request settle w = (Ok res, w')
    ∧ (res = conflict ∧ status res = 409%nat
       ∨ res = success ∧ status res = 200%nat
       ∨ ∃ reason, res = failure reason ∧ status res = 500%nat).
Proof.
  destruct (alive (stimulusProcess w)) eqn:Halive.
  { exists conflict, w. split; [|by left].
    unfold POST. unfold mbind at 1, M_bind, read at 1. by rewrite Halive. }
  rewrite POST_idle by done.
  destruct (POST_launch cwd request w) as [[[]|e] started];
    [|eexists _, _; split; [done|]; right; right; by eexists].
  destruct (settle_window_frame cwd settle "" started)
    as (buffer & settled & later & -> & _).
  destruct (processExited settled) eqn:Hexited.
  - unfold POST_report. run. rewrite Hexited.
    eexists _, _; split; [done|]; right; right; by eexists.
  - rewrite POST_report_running by done.
    eexists _, _; split; [done|]; right; by left.
Qed.

(** X2. A body that is not JSON is answered with a failure carrying the
    message of the parser, and nothing at all is changed: no directory is
    made, no file written, no process spawned, no variable assigned. *)
Theorem POST_malformed_body_changes_nothing cwd msg settle w :
  alive (stimulusProcess w) = false →
  POST cwd (Malformed msg) settle w = (Ok (failure msg), w).
Proof.
  intros Hidle. rewrite POST_idle by done.
  unfold POST_launch. by run.
Qed.

Lemma POST_malformed_body_changes_nothing_witness :
  alive (stimulusProcess Samples.fresh) = false
  ∧ POST Samples.cwd (Malformed "Unexpected end of JSON input") []
      Samples.fresh
    = (Ok (failure "Unexpected end of JSON input"), Samples.fresh).
Proof.
  split; [reflexivity|].
  apply (POST_malformed_body_changes_nothing Samples.cwd
           "Unexpected end of JSON input" [] Samples.fresh).
  reflexivity.
Defined.

(** X3. What decides whether a parsed body gets a session started is only
    whether the two totals can be read from it. If the configuration is
    [null], or its [blocks] is missing or [null], [POST] fails after having
    written [config.json] and before anything else: no status is written,
    nothing is spawned, no handle is assigned. In every other case the
    launch goes through, even when [blocks] lacks a total or is no object:
    a total that cannot be found is simply left out of the fresh status. *)
Theorem POST_needs_blocks cwd config settle w :
  alive (stimulusProcess w) = false →
  (¬ usable config →
   ∃ reason w',
     POST cwd (Json config) settle w = (Ok (failure reason), w')
     ∧ files w' = <[configPath cwd := Json config]> (files w)
     ∧ effects w'
       = (effects w
          ++ [Mkdir (tmpDir cwd); Mkdir (dataDir cwd);
              WriteFile (configPath cwd) (Json config)])%list
     ∧ stimulusProcess w' = stimulusProcess w
     ∧ feedbackProcess w' = feedbackProcess w)
  ∧ (usable config →
     ∃ blocks started props,
       blocks_of config = Some blocks
       ∧ POST_launch cwd (Json config) w = (Ok (), started)
       ∧ files started !! statusPath cwd = Some (Json (JObj props))
       ∧ props !! "state" = Some (JStr "practice")
       ∧ props !! "total_trials" = member blocks "trials_per_block"
       ∧ props !! "total_blocks" = member blocks "num_blocks"
       ∧ stimulusProcess started = Some (Child (spawned w) false)
       ∧ feedbackProcess started = Some (Child (S (spawned w)) false)).
Proof.
  intros Hidle. split.
  - intros Hunusable. rewrite POST_idle by done.
    destruct (POST_launch_unusable cwd config w Hunusable) as [e ->].
    by eexists _, _.
  - intros (Hconfig & blocks & Hblocks & Hnull).
    destruct (initial_status_state (member blocks "trials_per_block")
                (member blocks "num_blocks"))
      as (props & Hfresh & Hstate & _ & Htrials & Htotal & _).
    exists blocks, (launched cwd config blocks w), props.
    split_and!; try done.
    + by apply POST_launch_usable.
    + unfold launched. cbn [files]. by rewrite lookup_insert_eq, Hfresh.
Qed.

Lemma POST_needs_blocks_witness :
  let config := JObj {[ "blocks" := JObj ∅ ]} in
  alive (stimulusProcess Samples.fresh) = false
  ∧ usable config
  ∧ ∃ blocks started props,
      blocks_of config = Some blocks
      ∧ POST_launch Samples.cwd (Json config) Samples.fresh = (Ok (), started)
      ∧ files started !! statusPath Samples.cwd = Some (Json (JObj props))
      ∧ props !! "state" = Some (JStr "practice")
      ∧ props !! "total_trials" = member blocks "trials_per_block"
      ∧ props !! "total_blocks" = member blocks "num_blocks"
      ∧ stimulusProcess started = Some (Child 0 false)
      ∧ feedbackProcess started = Some (Child 1 false).
Proof.
  intros config.
  assert (Husable : usable config).
  { split; [discriminate|]. exists (JObj ∅). split; [reflexivity | discriminate]. }
  split_and!; [reflexivity | exact Husable |].
  apply (POST_needs_blocks Samples.cwd config [] Samples.fresh eq_refl).
  exact Husable.
Defined.

(** ** What the wait decides *)

(** X4. Output on the pipes of the stimulus process, and anything that
    happens to the feedback process (its output, its exit, a failure to
    start it), never fails a start: [POST] answers with success, the
    stimulus process stays tracked and no error is on record. Only the
    handle of the feedback process is cleared when that process is gone. *)
Theorem POST_tolerates_chatter cwd config blocks settle w :
  alive (stimulusProcess w) = false →
  config ≠ JNull → blocks_of config = Some blocks → blocks ≠ JNull →
  Forall (λ e, is_chatter e = true) settle →
  ∃ w',
    POST cwd (Json config) settle w = (Ok success, w')
    ∧ w' = after_chatter settle (launched cwd config blocks w)
    ∧ stimulusProcess w' = Some (Child (spawned w) false)
    ∧ feedbackProcess w'
      = (if feedback_gone settle then None
         else Some (Child (S (spawned w)) false))
    ∧ processError w' = None
    ∧ processExited w' = false
    ∧ files w' = files (launched cwd config blocks w)
    ∧ effects w' = effects (launched cwd config blocks w).
Proof.
  intros Hidle Hconfig Hblocks Hnull Hquiet.
  rewrite POST_idle, (POST_launch_usable _ _ blocks), settle_window_chatter
    by done.
  rewrite after_chatter_world. eexists. split; [by apply POST_report_running|].
  by split_and!.
Qed.

Lemma POST_tolerates_chatter_witness :
  let config := Page.config_json Samples.config in
  let settle :=
    [ Stimulus (StderrData "pylsl: stream outlet created");
      Feedback (SpawnError "spawn python ENOENT");
      Stimulus (StdoutData "PsychoPy window open") ] in
  Forall (λ e, is_chatter e = true) settle
  ∧ ∃ w',
      POST Samples.cwd (Json config) settle Samples.fresh = (Ok success, w')
      ∧ stimulusProcess w' = Some (Child 0 false)
      ∧ feedbackProcess w' = None
      ∧ processError w' = None.
Proof.
  intros config settle.
  assert (Hquiet : Forall (λ e, is_chatter e = true) settle)
    by (repeat constructor).
  split; [exact Hquiet|].
  destruct (POST_tolerates_chatter Samples.cwd config
              (JObj {[ "num_blocks" := num 2; "trials_per_block" := num 50;
                       "practice_trials" := num 10;
                       "break_duration" := num 120 ]})
              settle Samples.fresh)
    as (w' & Hrun & _ & Hstimulus & Hfeedback & Herror & _);
    [reflexivity | discriminate | reflexivity | discriminate | exact Hquiet |].
  by exists w'.
Defined.



(** X6. When the interpreter cannot be started, [POST] answers with the
    failure "Failed to start Python: ... Is Python installed and on PATH?"
    and clears the handle, but writes nothing more: [status.json] keeps the
    fresh practice document that was written before the spawn. *)
Theorem POST_reports_launch_failure cwd config blocks before msg after w :
  alive (stimulusProcess w) = false →
  config ≠ JNull → blocks_of config = Some blocks → blocks ≠ JNull →
  Forall (λ e, is_chatter e = true) before →
  Forall (λ e, is_chatter e = true) after →
  ∃ w' props,
    POST cwd (Json config) (before ++ Stimulus (SpawnError msg) :: after) w
    = (Ok (failure ("Failed to start Python: " +:+ msg
                    +:+ ". Is Python installed and on PATH?")), w')
    ∧ files w' = files (launched cwd config blocks w)
    ∧ effects w' = effects (launched cwd config blocks w)
    ∧ files w' !! statusPath cwd = Some (Json (JObj props))
    ∧ props !! "state" = Some (JStr "practice")
    ∧ stimulusProcess w' = None
    ∧ processExited w' = true.
Proof.
  intros Hidle Hconfig Hblocks Hnull Hbefore Hafter.
  rewrite POST_idle, (POST_launch_usable _ _ blocks), settle_window_app,
    settle_window_chatter by done.
  cbn [settle_window]. unfold mbind at 1, M_bind, modify, exec.
  rewrite stimulus_on_error_world, settle_window_chatter by done.
  cbn [snd]. rewrite !after_chatter_world.
  cbn [files stimulusProcess feedbackProcess processError processExited
       spawned effects].
  destruct (initial_status_state (member blocks "trials_per_block")
              (member blocks "num_blocks"))
    as (props & Hfresh & Hstate & _).
  eexists _, props. split.
  { apply POST_report_exited; [done..|]. by apply or_else_nonempty || done. }
  cbn [files stimulusProcess processError processExited effects].
  split_and!; try done.
  unfold launched. cbn [files]. by rewrite lookup_insert_eq, Hfresh.
Qed.

Lemma POST_reports_launch_failure_witness :
  let config := Page.config_json Samples.config in
  ∃ w' props,
    POST Samples.cwd (Json config)
      ([] ++ Stimulus (SpawnError "spawn python ENOENT") :: []) Samples.fresh
    = (Ok (failure "Failed to start Python: spawn python ENOENT. Is Python installed and on PATH?"),
       w')
    ∧ files w' !! statusPath Samples.cwd = Some (Json (JObj props))
    ∧ props !! "state" = Some (JStr "practice")
    ∧ stimulusProcess w' = None.
Proof.
  intros config.
  destruct (POST_reports_launch_failure Samples.cwd config
              (JObj {[ "num_blocks" := num 2; "trials_per_block" := num 50;
                       "practice_trials" := num 10;
                       "break_duration" := num 120 ]})
              [] "spawn python ENOENT" [] Samples.fresh)
    as (w' & props & Hrun & _ & _ & Hfile & Hstate & Hstimulus & _);
    [reflexivity | discriminate | reflexivity | discriminate
    | constructor | constructor |].
  by exists w', props.
Defined.

(** ** The exit handler on any status *)

(** With a code other than zero the handler records the reason, marks the
    process as exited, clears the handle, and either leaves the files
    alone or writes the fallback status. *)
Lemma stimulus_on_exit_cases cwd stderrBuffer c w :
  c ≠ 0%Z →
  let base :=
    World (files w) None (feedbackProcess w)
          (Some (exit_reason stderrBuffer c)) true (spawned w) (effects w) in
  stimulus_on_exit cwd stderrBuffer (Some c) w = (Ok (), base)
  ∨ stimulus_on_exit cwd stderrBuffer (Some c) w
    = (Ok (),
       log (WriteFile (statusPath cwd) (Json fallback_status))
           (with_files (<[statusPath cwd := Json fallback_status]> (files w))
                       base)).
Proof.
  intros Hc. unfold stimulus_on_exit. rewrite bool_decide_eq_true_2 by done.
  open_world w.
  destruct (fs !! statusPath cwd) as [[doc | msg]|] eqn:Hfile; run_reading Hfile.
  1: destruct doc as [|b|n|s|items|props]; run;
     [|destruct b|destruct (bool_decide (n ≠ Q2Qc 0))
      |destruct (bool_decide (s ≠ []))|
      |destruct (negb (is_string (props !! "state") "aborted")
                 && negb (is_string (props !! "state") "completed"))];
     run.
  all: by (left + right).
Qed.

(** X12. With a code other than zero, the exit handler leaves a
    [status.json] that does not parse exactly as it is, writing nothing,
    and replaces a [status.json] that parses to anything but an object
    ([null], a number, a string, a boolean, an array) by the fallback
    document. In both cases the reason is recorded and the handle is
    cleared. *)
Theorem exit_handler_on_unusual_status cwd stderrBuffer (c : Z) w :
  c ≠ 0%Z →
  (∀ msg, files w !! statusPath cwd = Some (Malformed msg) →
     ∃ w', stimulus_on_exit cwd stderrBuffer (Some c) w = (Ok (), w')
       ∧ files w' = files w
       ∧ effects w' = effects w
       ∧ processError w' = Some (exit_reason stderrBuffer c)
       ∧ stimulusProcess w' = None)
  ∧ (∀ document, files w !! statusPath cwd = Some (Json document) →
     (∀ props, document ≠ JObj props) →
     ∃ w', stimulus_on_exit cwd stderrBuffer (Some c) w = (Ok (), w')
       ∧ files w' = <[statusPath cwd := Json fallback_status]> (files w)
       ∧ effects w'
         = (effects w
            ++ [WriteFile (statusPath cwd) (Json fallback_status)])%list
       ∧ processError w' = Some (exit_reason stderrBuffer c)
       ∧ stimulusProcess w' = None).
Proof.
  intros Hc. split.
  - intros msg Hfile. unfold stimulus_on_exit.
    rewrite bool_decide_eq_true_2 by done.
    open_world w. run_reading Hfile. by eexists.
  - intros document Hfile Hshape. unfold stimulus_on_exit.
    rewrite bool_decide_eq_true_2 by done.
    open_world w. run_reading Hfile.
    destruct document as [|b|n|s|items|props]; run;
      [|destruct b|destruct (bool_decide (n ≠ Q2Qc 0))
       |destruct (bool_decide (s ≠ []))| |by destruct (Hshape props)];
      run; by eexists.
Qed.

Lemma exit_handler_on_unusual_status_witness :
  let w := Samples.session (Some (Malformed "Unexpected end of JSON input")) in
  files w !! statusPath Samples.cwd
  = Some (Malformed "Unexpected end of JSON input")
  ∧ ∃ w', stimulus_on_exit Samples.cwd "Traceback" (Some 1%Z) w = (Ok (), w')
      ∧ files w' = files w
      ∧ effects w' = effects w
      ∧ processError w' = Some "Traceback"
      ∧ stimulusProcess w' = None.
Proof.
  intros w.
  assert (Hfile : files w !! statusPath Samples.cwd
                  = Some (Malformed "Unexpected end of JSON input"))
    by (vm_compute; reflexivity).
  split; [exact Hfile|].
  destruct (exit_handler_on_unusual_status Samples.cwd "Traceback" 1 w)
    as [Hmalformed _]; [lia|].
  exact (Hmalformed _ Hfile).
Defined.

(** ** Stop, exit and the next start *)

Lemma idle_accepts_start cwd w :
  alive (stimulusProcess w) = false → accepts_start cwd w.
Proof.
  intros Hidle request settle. rewrite POST_idle by done.
  destruct (POST_launch cwd request w) as [[[]|e] started]; [|done].
  destruct (settle_window_frame cwd settle "" started)
    as (buffer & settled & later & -> & _).
  unfold POST_report. run. by destruct (processExited settled).
Qed.

(** X10. A start is turned away only while a session is tracked: after a
    stop, after the exit of the stimulus process (with any code, or none)
    and after its failure to start, the next [POST] is never answered with
    the conflict. *)
Theorem start_accepted_after_termination cwd w :
  accepts_start cwd (DELETE cwd w).2
  ∧ (∀ stderrBuffer code,
       accepts_start cwd (stimulus_on_exit cwd stderrBuffer code w).2)
  ∧ (∀ msg, accepts_start cwd (stimulus_on_error msg w).2).
Proof.
  split_and!.
  - apply idle_accepts_start.
    destruct (alive (stimulusProcess w)) eqn:Halive;
      [|by rewrite DELETE_idle].
    destruct (stimulusProcess w) as [h|] eqn:Hstimulus; [|done].
    apply negb_true_iff in Halive.
    destruct (DELETE_handles cwd w h Hstimulus Halive) as (w' & -> & Hs & _).
    cbn [snd]. by rewrite Hs.
  - intros stderrBuffer code. apply idle_accepts_start.
    destruct (stimulus_on_exit_frame cwd stderrBuffer code w)
      as (w' & later & -> & _ & _ & _ & _ & Hs & _).
    cbn [snd]. by rewrite Hs.
  - intros msg. apply idle_accepts_start.
    by rewrite stimulus_on_error_world.
Qed.

(** X9. A second stop right after a stop finds nothing to do: it answers
    with success and leaves the world exactly as the first stop left it. *)
Theorem DELETE_idempotent cwd w :
  DELETE cwd (DELETE cwd w).2 = (Ok success, (DELETE cwd w).2).
Proof.
  apply DELETE_idle.
  destruct (alive (stimulusProcess w)) eqn:Halive;
    [|by rewrite DELETE_idle].
  destruct (stimulusProcess w) as [h|] eqn:Hstimulus; [|done].
  apply negb_true_iff in Halive.
  destruct (DELETE_handles cwd w h Hstimulus Halive) as (w' & -> & Hs & _).
  cbn [snd]. by rewrite Hs.
Qed.

(** X11. The status written by a stop outlives the exit of the process it
    killed: whatever code the stimulus process then exits with, and
    whatever it had written to its standard error, the exit handler leaves
    [status.json] as the stop wrote it, progress included. *)
Theorem stop_survives_exit cwd w h props stderrBuffer code :
  stimulusProcess w = Some h →
  killed h = false →
  files w !! statusPath cwd = Some (Json (JObj props)) →
  terminal props = false →
  ∃ halted final,
    DELETE cwd w = (Ok success, halted)
    ∧ stimulus_on_exit cwd stderrBuffer code halted = (Ok (), final)
    ∧ files final = files halted
    ∧ files final !! statusPath cwd = Some (Json (stopped props))
    ∧ ∀ key, key ≠ "state" → key ≠ "phase" →
             spread (stopped props) !! key = props !! key.
Proof.
  intros Hstimulus Hkilled Hfile [Hcompleted Haborted]%terminal_false.
  destruct (DELETE_live_document cwd w h props)
    as (halted & Hstop & Hfiles & _); [done..|].
  destruct (stopped_fields props) as (props' & Hprops & Hstate & _ & Hrest).
  assert (Hhalted : files halted !! statusPath cwd = Some (Json (JObj props'))).
  { by rewrite Hfiles, lookup_insert_eq, Hprops. }
  destruct (stimulus_on_exit_frame cwd stderrBuffer code halted)
    as (final & later & Hexit & _).
  destruct (stimulus_on_exit_terminal cwd stderrBuffer code halted props')
    as [Hsame _]; [done | by right |].
  unfold exec in Hsame. rewrite Hexit in Hsame. cbn [snd] in Hsame.
  exists halted, final. split_and!; try done.
  - by rewrite Hsame, Hhalted, Hprops.
  - rewrite Hprops. exact Hrest.
Qed.

Lemma stop_survives_exit_witness :
  let w := Samples.session (Some (Json (JObj Samples.progress))) in
  files w !! statusPath Samples.cwd = Some (Json (JObj Samples.progress))
  ∧ terminal Samples.progress = false
  ∧ ∃ halted final,
      DELETE Samples.cwd w = (Ok success, halted)
      ∧ stimulus_on_exit Samples.cwd "" (Some 1%Z) halted = (Ok (), final)
      ∧ files final !! statusPath Samples.cwd
        = Some (Json (stopped Samples.progress)).
Proof.
  intros w.
  assert (Hfile : files w !! statusPath Samples.cwd
                  = Some (Json (JObj Samples.progress)))
    by (vm_compute; reflexivity).
  assert (Hlive : terminal Samples.progress = false)
    by (vm_compute; reflexivity).
  split_and!; [exact Hfile | exact Hlive |].
  destruct (stop_survives_exit Samples.cwd w (Child 0 false) Samples.progress
              "" (Some 1%Z) eq_refl eq_refl Hfile Hlive)
    as (halted & final & Hstop & Hexit & _ & Hstatus & _).
  by exists halted, final.
Defined.

(** ** The health report *)

Lemma GET_reads w :
  GET w
  = (Ok (Response 200
           (health (alive (stimulusProcess w)) (alive (feedbackProcess w))
                   (if processExited w
                    then from_option (λ reason : string, JStr reason)
                           JNull (processError w)
                    else JNull))), w).
Proof. reflexivity. Qed.

(** X7. A crash of the stimulus process is visible through the health
    report, whenever it happens: once the exit handler has run with a code
    other than zero, [GET] reports that nothing is running and gives the
    recorded reason as the error; [GET] itself changes nothing. *)
Theorem health_reports_crash cwd stderrBuffer (c : Z) w :
  c ≠ 0%Z →
  ∃ crashed,
    stimulus_on_exit cwd stderrBuffer (Some c) w = (Ok (), crashed)
    ∧ GET crashed
      = (Ok (Response 200
               (JObj {[ "running" := JBool false;
                        "feedbackRunning" := JBool (alive (feedbackProcess w));
                        "error" := JStr (exit_reason stderrBuffer c) ]})),
         crashed).
Proof.
  intros Hc.
  destruct (stimulus_on_exit_cases cwd stderrBuffer c w Hc) as [-> | ->];
    eexists; (split; [done|]); rewrite GET_reads; by destruct w.
Qed.

Lemma health_reports_crash_witness :
  ∃ crashed,
    stimulus_on_exit Samples.cwd "Segmentation fault" (Some 139%Z)
      (Samples.session (Some (Json (JObj Samples.progress))))
    = (Ok (), crashed)
    ∧ GET crashed
      = (Ok (Response 200
               (JObj {[ "running" := JBool false;
                        "feedbackRunning" := JBool true;
                        "error" := JStr "Segmentation fault" ]})),
         crashed).
Proof.
  apply (health_reports_crash Samples.cwd "Segmentation fault" 139
           (Samples.session (Some (Json (JObj Samples.progress))))).
  lia.
Defined.

(** X8. A start that goes through supersedes the error on record: whatever
    failure an earlier session left behind, after a [POST] whose wait saw
    no exit of the stimulus process the health report says that the
    session is running and that there is no error. *)
Theorem health_after_start cwd config blocks settle w :
  alive (stimulusProcess w) = false →
  config ≠ JNull → blocks_of config = Some blocks → blocks ≠ JNull →
  Forall (λ e, is_chatter e = true) settle →
  ∃ w',
    POST cwd (Json config) settle w = (Ok success, w')
    ∧ GET w'
      = (Ok (Response 200
               (JObj {[ "running" := JBool true;
                        "feedbackRunning" := JBool (negb (feedback_gone settle));
                        "error" := JNull ]})),
         w').
Proof.
  intros Hidle Hconfig Hblocks Hnull Hquiet.
  rewrite POST_idle, (POST_launch_usable _ _ blocks), settle_window_chatter
    by done.
  rewrite after_chatter_world. eexists. split; [by apply POST_report_running|].
  rewrite GET_reads. cbn [stimulusProcess feedbackProcess processExited launched].
  by destruct (feedback_gone settle).
Qed.

Lemma health_after_start_witness :
  let config := Page.config_json Samples.config in
  let crashed :=
    with_processExited true
      (with_processError (Some "Traceback")
         (Samples.at_rest (Some (Json fallback_status)))) in
  processError crashed = Some "Traceback"
  ∧ ∃ w',
      POST Samples.cwd (Json config) [] crashed = (Ok success, w')
      ∧ GET w'
        = (Ok (Response 200
                 (JObj {[ "running" := JBool true;
                          "feedbackRunning" := JBool true;
                          "error" := JNull ]})),
           w').
Proof.
  intros config crashed. split; [reflexivity|].
  apply (health_after_start Samples.cwd config
           (JObj {[ "num_blocks" := num 2; "trials_per_block" := num 50;
                    "practice_trials" := num 10;
                    "break_duration" := num 120 ]})
           [] crashed);
    [reflexivity | discriminate | reflexivity | discriminate | constructor].
Defined.

(** * Further properties of the page *)

(** ** Polling the status *)

Lemma ok_200 content : ok (NextResponse_json content 200) = true.
Proof. by vm_compute. Qed.

(** X14. A poll that fails changes nothing: when [status.json] is present
    but does not parse, the status route answers 500 and [pollStatus]
    leaves the page as it was, still showing the last status it received
    and still polling; the same holds when the server cannot be reached. *)
Theorem pollStatus_keeps_last_status cwd v w :
  (∀ msg, files w !! StatusRoute.statusPath cwd = Some (Malformed msg) →
     Polling.pollStatus (Polling.answered (StatusRoute.GET cwd)) v w = (v, w))
  ∧ Polling.pollStatus Polling.offline v w = (v, w).
Proof.
  split; [|done]. intros msg Hfile.
  unfold Polling.pollStatus, Polling.answered.
  by rewrite (status_GET_malformed _ _ msg).
Qed.

Lemma pollStatus_keeps_last_status_witness :
  let w := Samples.session (Some (Malformed "Unexpected end of JSON input")) in
  let v := Polling.View (JObj Samples.progress) true None true in
  files w !! StatusRoute.statusPath Samples.cwd
  = Some (Malformed "Unexpected end of JSON input")
  ∧ Polling.pollStatus (Polling.answered (StatusRoute.GET Samples.cwd)) v w
    = (v, w).
Proof.
  intros w v.
  assert (Hfile : files w !! StatusRoute.statusPath Samples.cwd
                  = Some (Malformed "Unexpected end of JSON input"))
    by (vm_compute; reflexivity).
  split; [exact Hfile|].
  destruct (pollStatus_keeps_last_status Samples.cwd v w) as [Hpoll _].
  exact (Hpoll _ Hfile).
Defined.

(** X15. A poll shows exactly the document that is stored. When that
    document is an object, the page shows it; it stops running and stops
    polling if the state of the document is [completed] or [aborted], and
    otherwise keeps both as they were. When there is no document the page
    shows the idle status and keeps running and polling. The server is
    left as it was. *)
Theorem pollStatus_shows_stored_status cwd v w :
  (∀ props, files w !! StatusRoute.statusPath cwd = Some (Json (JObj props)) →
     Polling.pollStatus (Polling.answered (StatusRoute.GET cwd)) v w
     = (if terminal props
        then Polling.View (JObj props) false (Polling.error v) false
        else Polling.View (JObj props) (Polling.isRunning v)
               (Polling.error v) (Polling.polling v),
        w))
  ∧ (files w !! StatusRoute.statusPath cwd = None →
     Polling.pollStatus (Polling.answered (StatusRoute.GET cwd)) v w
     = (Polling.View Polling.IDLE_STATUS (Polling.isRunning v)
          (Polling.error v) (Polling.polling v),
        w)).
Proof.
  split.
  - intros props Hfile. unfold Polling.pollStatus, Polling.answered.
    rewrite (status_GET_document _ _ (JObj props)) by done.
    rewrite ok_200. cbn [NextResponse_json body get]. unfold terminal.
    rewrite (orb_comm (is_string _ "completed")).
    by destruct (is_string _ "aborted" || is_string _ "completed").
  - intros Hfile. unfold Polling.pollStatus, Polling.answered.
    by rewrite status_GET_absent.
Qed.

Lemma pollStatus_shows_stored_status_witness :
  let w := Samples.at_rest (Some (Json (JObj Samples.finished))) in
  let v := Polling.View (JObj Samples.progress) true None true in
  files w !! StatusRoute.statusPath Samples.cwd
  = Some (Json (JObj Samples.finished))
  ∧ terminal Samples.finished = true
  ∧ Polling.pollStatus (Polling.answered (StatusRoute.GET Samples.cwd)) v w
    = (Polling.View (JObj Samples.finished) false None false, w).
Proof.
  intros w v.
  assert (Hfile : files w !! StatusRoute.statusPath Samples.cwd
                  = Some (Json (JObj Samples.finished)))
    by (vm_compute; reflexivity).
  split_and!; [exact Hfile | vm_compute; reflexivity |].
  destruct (pollStatus_shows_stored_status Samples.cwd v w) as [Hpoll _].
  exact (Hpoll _ Hfile).
Defined.

(** ** Stopping from the page *)

(** X16. Stopping a live session from the page: the stop request reaches
    [DELETE], the page stops running and polling, and the poll that
    follows shows the status as the stop left it, aborted with phase
    [none] and the progress that was on record. When the server cannot be
    reached, the page only shows "Failed to stop session" and keeps
    running. *)
Theorem handleStop_shows_aborted_progress cwd v w h props :
  stimulusProcess w = Some h →
  killed h = false →
  files w !! statusPath cwd = Some (Json (JObj props)) →
  terminal props = false →
  (∃ halted,
     DELETE cwd w = (Ok success, halted)
     ∧ Polling.handleStop (Polling.answered (DELETE cwd))
         (Polling.answered (StatusRoute.GET cwd)) v w
       = (Polling.View (stopped props) false (Polling.error v) false, halted)
     ∧ files halted !! statusPath cwd = Some (Json (stopped props))
     ∧ spread (stopped props) !! "state" = Some (JStr "aborted")
     ∧ spread (stopped props) !! "phase" = Some (JStr "none")
     ∧ ∀ key, key ≠ "state" → key ≠ "phase" →
              spread (stopped props) !! key = props !! key)
  ∧ Polling.handleStop Polling.offline
      (Polling.answered (StatusRoute.GET cwd)) v w
    = (Polling.View (Polling.status v) (Polling.isRunning v)
         (Some (JStr "Failed to stop session")) (Polling.polling v), w).
Proof.
  intros Hstimulus Hkilled Hfile [Hcompleted Haborted]%terminal_false.
  split; [|done].
  destruct (DELETE_live_document cwd w h props)
    as (halted & Hstop & Hfiles & _); [done..|].
  destruct (stopped_fields props) as (props' & Hprops & Hstate & Hphase & Hrest).
  assert (Hhalted : files halted !! StatusRoute.statusPath cwd
                    = Some (Json (JObj props'))).
  { by rewrite status_route_path, Hfiles, lookup_insert_eq, Hprops. }
  exists halted. rewrite Hprops. split_and!; try done.
  - unfold Polling.handleStop, Polling.answered at 1. rewrite Hstop.
    unfold Polling.pollStatus, Polling.answered.
    rewrite (status_GET_document _ _ (JObj props')) by done.
    rewrite ok_200. cbn [NextResponse_json body get].
    rewrite Hstate. by destruct v.
  - by rewrite <- status_route_path.
Qed.

Lemma handleStop_shows_aborted_progress_witness :
  let w := Samples.session (Some (Json (JObj Samples.progress))) in
  let v := Polling.View (JObj Samples.progress) true None true in
  files w !! statusPath Samples.cwd = Some (Json (JObj Samples.progress))
  ∧ terminal Samples.progress = false
  ∧ ∃ halted,
      Polling.handleStop (Polling.answered (DELETE Samples.cwd))
        (Polling.answered (StatusRoute.GET Samples.cwd)) v w
      = (Polling.View (stopped Samples.progress) false None false, halted)
      ∧ spread (stopped Samples.progress) !! "current_trial" = Some (num 25).
Proof.
  intros w v.
  assert (Hfile : files w !! statusPath Samples.cwd
                  = Some (Json (JObj Samples.progress)))
    by (vm_compute; reflexivity).
  assert (Hlive : terminal Samples.progress = false)
    by (vm_compute; reflexivity).
  split_and!; [exact Hfile | exact Hlive |].
  destruct (handleStop_shows_aborted_progress Samples.cwd v w (Child 0 false)
              Samples.progress eq_refl eq_refl Hfile Hlive)
    as [(halted & _ & Hstop & _ & _ & _ & Hrest) _].
  exists halted. split; [exact Hstop|].
  rewrite Hrest by discriminate. vm_compute; reflexivity.
Defined.

(** ** Starting from the page *)

Lemma Qred_inject_Z (k : Z) : Qred (inject_Z k) = inject_Z k.
Proof. apply Qred_identity. simpl. apply Z.gcd_1_r. Qed.

Lemma truncate_integer (k : Z) : Page.truncate (Q2Qc (inject_Z k)) = k.
Proof.
  unfold Page.truncate. cbn [Q2Qc this]. rewrite Qred_inject_Z. simpl.
  apply Z.quot_1_r.
Qed.

Lemma half_of_twice (k : Z) :
  (Q2Qc (inject_Z (2 * k)) / Q2Qc 2)%Qc = Q2Qc (inject_Z k).
Proof.
  apply Qc_is_canon. unfold Qcdiv, Qcmult, Qcinv. cbn [Q2Qc this].
  rewrite !Qred_correct. unfold Qeq. simpl. lia.
Qed.

Lemma remainder_even (k : Z) :
  Page.nonzero (Page.remainder (Q2Qc (inject_Z (2 * k))) (Q2Qc 2)) = false.
Proof.
  unfold Page.remainder.
  rewrite bool_decide_eq_false_2 by (by intros ?%(f_equal this)).
  rewrite half_of_twice, truncate_integer. cbn [Page.nonzero].
  apply bool_decide_eq_false_2. intros Hrest. apply Hrest.
  apply Qc_is_canon. unfold Qcminus, Qcplus, Qcopp, Qcmult. cbn [Q2Qc this].
  rewrite !Qred_correct. unfold Qeq. simpl. lia.
Qed.

Lemma config_json_usable c : usable (Page.config_json c).
Proof. split; [done|]. eexists. split; [by vm_compute|done]. Qed.

Lemma units_nonempty (s : string) : s ≠ "" → units s ≠ [].
Proof. by destruct s. Qed.

Lemma failure_error reason :
  ok (failure reason) = false
  ∧ get (Some (body (failure reason))) "error" = Ok (Some (JStr reason)).
Proof. split; by vm_compute. Qed.

(** For a configuration from which the totals can be read, the answer of
    [POST] is the conflict, the success, or a failure whose reason is not
    empty. *)
Lemma POST_usable_answers cwd config settle w :
  usable config →
  ∃ res w',
    POST cwd (Json config) settle w = (Ok res, w')
    ∧ (res = success
       ∨ ∃ reason, reason ≠ ""
           ∧ (res = conflict ∧ reason = "A session is already running"
              ∨ res = failure reason)).
Proof.
  intros (Hconfig & blocks & Hblocks & Hnull).
  destruct (alive (stimulusProcess w)) eqn:Halive.
  { exists conflict, w. split; [|right; eexists; split; [|by left]; done].
    unfold POST. unfold mbind at 1, M_bind, read at 1. by rewrite Halive. }
  rewrite POST_idle by done.
  rewrite (POST_launch_usable _ _ blocks) by done.
  destruct (settle_window_frame cwd settle "" (launched cwd config blocks w))
    as (buffer & settled & later & -> & _).
  destruct (processExited settled) eqn:Hexited.
  - unfold POST_report. run. rewrite Hexited.
    eexists _, _; split; [done|]. right. eexists. split; [|by right].
    by do 2 apply or_else_nonempty.
  - rewrite POST_report_running by done.
    eexists _, _; split; [done|]. by left.
Qed.

(** X17. When the three checks of [handleStart] pass (a participant that
    is not blank, an even whole number of trials per block, a rest range
    that is not empty), exactly one start request is sent, carrying the
    configuration, and the page shows the answer of [POST]: after a
    success it runs without error; otherwise it shows the reason the
    server gave, the conflict or a reason of failure that is never empty,
    and runs no more than before. Either way it is no longer starting. *)
Theorem handleStart_shows_answer cwd settle h w :
  Page.trim (Page.participant_id (Page.config h)) ≠ [] →
  (∃ k, Page.trials_per_block (Page.blocks (Page.config h))
        = Q2Qc (inject_Z (2 * k))) →
  (Page.rest_min (Page.timing (Page.config h))
   < Page.rest_max (Page.timing (Page.config h)))%Qc →
  ∃ res w',
    let request := Json (Page.config_json (Page.config h)) in
    POST cwd request settle w = (Ok res, w')
    ∧ (res = success
       ∧ Page.handleStart (start_route cwd settle) h w
         = (Page.Home (Page.config h) Page.IDLE_STATUS true None false,
            w', [request])
       ∨ ∃ reason,
           reason ≠ ""
           ∧ (res = conflict ∧ reason = "A session is already running"
              ∨ res = failure reason)
           ∧ Page.handleStart (start_route cwd settle) h w
             = (Page.Home (Page.config h) Page.IDLE_STATUS (Page.isRunning h)
                  (Some (JStr reason)) false,
                w', [request])).
Proof.
  intros Hparticipant [k Heven] Hrest.
  destruct (POST_usable_answers cwd (Page.config_json (Page.config h)) settle w)
    as (res & w' & Hpost & Hres); [apply config_json_usable|].
  exists res, w'. cbv zeta. split; [done|].
  assert (Hstart : Page.handleStart (start_route cwd settle) h w
    = let shown :=
        Page.setStarting true
          (Page.setStatus Page.IDLE_STATUS (Page.setError None h)) in
      (if negb (ok res) then
         match get (Some (body res)) "error" with
         | Ok reason =>
             Page.setStarting false
               (Page.setError (if truthy_val reason then reason
                               else Some (JStr "Failed to start session"))
                  shown)
         | Throw _ =>
             Page.setStarting false
               (Page.setError (Some (JStr "Failed to connect to server"))
                  shown)
         end
       else Page.setStarting false (Page.setIsRunning true shown),
       w', [Json (Page.config_json (Page.config h))])).
  { unfold Page.handleStart.
    rewrite (bool_decide_eq_false_2 (Page.trim _ = [])) by done.
    rewrite Heven, remainder_even.
    rewrite bool_decide_eq_false_2 by by apply Qclt_not_le.
    unfold start_route, Page.served.
    change (JSON_stringify ?j) with (Json j). rewrite Hpost.
    destruct (negb (ok res)); [|done].
    by destruct (get (Some (body res)) "error"). }
  rewrite Hstart. clear Hstart Hpost.
  destruct Hres as [->|(reason & Hreason & [[-> ->]| ->])].
  - by left.
  - right. eexists. split_and!; [done|by left|]. by destruct h.
  - right. exists reason. split_and!; [done|by right|].
    destruct (failure_error reason) as [-> ->]. cbn [negb truthy_val truthy].
    rewrite bool_decide_eq_true_2 by by apply units_nonempty.
    by destruct h.
Qed.

Lemma handleStart_shows_answer_witness :
  ∃ res w',
    POST Samples.cwd (Json (Page.config_json Samples.config)) [] Samples.fresh
    = (Ok res, w')
    ∧ (res = success
       ∧ Page.handleStart (start_route Samples.cwd [])
           (Samples.page Samples.config) Samples.fresh
         = (Page.Home Samples.config Page.IDLE_STATUS true None false, w',
            [Json (Page.config_json Samples.config)])
       ∨ ∃ reason,
           reason ≠ ""
           ∧ (res = conflict ∧ reason = "A session is already running"
              ∨ res = failure reason)
           ∧ Page.handleStart (start_route Samples.cwd [])
               (Samples.page Samples.config) Samples.fresh
             = (Page.Home Samples.config Page.IDLE_STATUS false
                  (Some (JStr reason)) false,
                w', [Json (Page.config_json Samples.config)])).
Proof.
  assert (Hparticipant : Page.trim (Page.participant_id Samples.config) ≠ [])
    by (vm_compute; discriminate).
  assert (Heven : ∃ k, Page.trials_per_block (Page.blocks Samples.config)
                       = Q2Qc (inject_Z (2 * k)))
    by (exists 25%Z; reflexivity).
  assert (Hrest : (Page.rest_min (Page.timing Samples.config)
                   < Page.rest_max (Page.timing Samples.config))%Qc)
    by (vm_compute; reflexivity).
  exact (handleStart_shows_answer Samples.cwd [] (Samples.page Samples.config)
           Samples.fresh Hparticipant Heven Hrest).
Defined.

(** * Saved defaults *)

Lemma extend_lookup base k1 v1 k2 v2 k3 v3 key :
  extend base [(k1, v1); (k2, v2); (k3, v3)] !! key
  = if decide (k3 = key) then v3
    else if decide (k2 = key) then v2
    else if decide (k1 = key) then v1
    else base !! key.
Proof.
  unfold extend. cbn [foldl fst snd].
  assert (Hstep : ∀ (props : gmap string json) k (v : jsval),
    match v with Some j => <[k := j]> props | None => delete k props end !! key
    = if decide (k = key) then v else props !! key).
  { intros props k [j|]; case_decide; simplify_eq.
    - by rewrite lookup_insert_eq.
    - by rewrite lookup_insert_ne.
    - by rewrite lookup_delete_eq.
    - by rewrite lookup_delete_ne. }
  by rewrite !Hstep.
Qed.

Lemma sections_cases key :
  key ∈ sections ↔ key = "colors" ∨ key = "timing" ∨ key = "blocks".
Proof.
  unfold sections. rewrite !elem_of_cons, elem_of_nil. tauto.
Qed.

Lemma coalesce_present (a : jsval) (b : jsval) :
  Defaults.coalesce a (Ok b) = Ok (if present a then a else b).
Proof. by destruct a as [[]|]. Qed.

(** The sections of [saved] that are there and not [null] replace those of
    the configuration; everything else of the configuration is kept. *)
Lemma merged_objects (saved current : gmap string json) :
  ∃ next,
    Defaults.merged (JObj saved) (JObj current) = Ok (JObj next)
    ∧ ∀ key, next !! key
             = if bool_decide (key ∈ sections) && present (saved !! key)
               then saved !! key else current !! key.
Proof.
  eexists. split.
  { unfold Defaults.merged. cbn [get].
    unfold mbind, Defaults.outcome_bind, mret, Defaults.outcome_ret.
    rewrite !coalesce_present. cbn [spread]. reflexivity. }
  intros key. rewrite extend_lookup.
  destruct (decide ("blocks" = key)) as [<-|?];
    [by destruct (present (saved !! "blocks"))|].
  destruct (decide ("timing" = key)) as [<-|?];
    [by destruct (present (saved !! "timing"))|].
  destruct (decide ("colors" = key)) as [<-|?];
    [by destruct (present (saved !! "colors"))|].
  rewrite bool_decide_eq_false_2; [done|].
  rewrite sections_cases. by intros [-> | [-> | ->]].
Qed.

(** X18. Defaults that are saved come back. After "Save as Default" on one
    configuration, both "Load Defaults" and the restore after mount turn
    any configuration into the same one: its sections [colors], [timing]
    and [blocks] are those of the saved configuration, where that has
    them other than [null], and everything else is its own. Saving changes
    nothing in the storage but the one key. *)
Theorem saved_defaults_come_back
    (saved current : gmap string json) (storage : gmap string Defaults.item) :
  ∃ stored next,
    Defaults.save (JObj saved) storage = Ok stored
    ∧ (∀ key, key ≠ Defaults.STORAGE_KEY → stored !! key = storage !! key)
    ∧ Defaults.load (JObj current) stored = Ok (JObj next)
    ∧ Defaults.restore stored (JObj current) = Ok (JObj next)
    ∧ ∀ key, next !! key
             = if bool_decide (key ∈ sections) && present (saved !! key)
               then saved !! key else current !! key.
Proof.
  destruct (merged_objects
              (extend ∅ [("colors", saved !! "colors");
                         ("timing", saved !! "timing");
                         ("blocks", saved !! "blocks")]) current)
    as (next & Hmerged & Hnext).
  eexists _, next. split_and!.
  - unfold Defaults.save. cbn [get].
    unfold mbind, Defaults.outcome_bind, mret, Defaults.outcome_ret.
    reflexivity.
  - intros key Hkey. by rewrite lookup_insert_ne.
  - unfold Defaults.load. rewrite lookup_insert_eq.
    unfold JSON_stringify, object. cbn [JSON_parse].
    unfold mbind, Defaults.outcome_bind. exact Hmerged.
  - unfold Defaults.restore. rewrite lookup_insert_eq.
    unfold JSON_stringify, object. cbn [JSON_parse]. exact Hmerged.
  - intros key. rewrite Hnext, extend_lookup, lookup_empty.
    case_bool_decide as Hkey; [|done]. cbn [andb].
    apply sections_cases in Hkey as [->| [->| ->]]; reflexivity.
Qed.

(** X19. With nothing stored under the key, or the empty string, the
    restore after mount leaves the configuration as it is, and "Load
    Defaults" gives it the sections [colors], [timing] and [blocks] of
    [DEFAULT_CONFIG], keeping everything else. *)
Theorem load_without_saved_defaults
    (current : gmap string json) (storage : gmap string Defaults.item) :
  storage !! Defaults.STORAGE_KEY = None
  ∨ storage !! Defaults.STORAGE_KEY = Some Defaults.Blank →
  Defaults.restore storage (JObj current) = Ok (JObj current)
  ∧ ∃ next,
      Defaults.load (JObj current) storage = Ok (JObj next)
      ∧ ∀ key, next !! key
               = if bool_decide (key ∈ sections)
                 then spread (Page.config_json Page.DEFAULT_CONFIG) !! key
                 else current !! key.
Proof.
  intros Hstorage.
  assert (Hfactory : ∀ key, key ∈ sections →
    get (Some (Page.config_json Page.DEFAULT_CONFIG)) key
    = Ok (spread (Page.config_json Page.DEFAULT_CONFIG) !! key)) by done.
  split; [unfold Defaults.restore; by destruct Hstorage as [Hnone|Hblank];
            [rewrite Hnone | rewrite Hblank]|].
  eexists. split.
  { unfold Defaults.load.
    destruct Hstorage as [-> | ->];
      rewrite !Hfactory by (apply sections_cases; tauto);
      unfold mbind, Defaults.outcome_bind, mret, Defaults.outcome_ret;
      cbn [spread]; reflexivity. }
  intros key. rewrite extend_lookup.
  destruct (decide ("blocks" = key)) as [<-|?]; [done|].
  destruct (decide ("timing" = key)) as [<-|?]; [done|].
  destruct (decide ("colors" = key)) as [<-|?]; [done|].
  rewrite bool_decide_eq_false_2; [done|].
  rewrite sections_cases. by intros [-> | [-> | ->]].
Qed.

Lemma load_without_saved_defaults_witness :
  let current := spread (Page.config_json Samples.unbalanced) in
  (∅ : gmap string Defaults.item) !! Defaults.STORAGE_KEY = None
  ∧ Defaults.restore ∅ (JObj current) = Ok (JObj current)
  ∧ ∃ next,
      Defaults.load (JObj current) ∅ = Ok (JObj next)
      ∧ next !! "blocks"
        = spread (Page.config_json Page.DEFAULT_CONFIG) !! "blocks"
      ∧ next !! "participant_id" = Some (JStr "P01").
Proof.
  intros current.
  assert (Hstorage : (∅ : gmap string Defaults.item) !! Defaults.STORAGE_KEY
                     = None) by reflexivity.
  split; [exact Hstorage|].
  destruct (load_without_saved_defaults current ∅ (or_introl Hstorage))
    as (Hrestore & next & Hload & Hnext).
  split; [exact Hrestore|]. exists next. split; [exact Hload|].
  rewrite !Hnext. split; vm_compute; reflexivity.
Defined.

(** X20. Stored defaults that cannot be parsed are ignored by the restore
    after mount, which leaves the configuration as it is, but not by "Load
    Defaults": there the error of the parser is thrown and no new
    configuration is produced. The same button throws a [TypeError] when
    the stored text is [null]. *)
Theorem unreadable_saved_defaults
    (current : json) (storage : gmap string Defaults.item) :
  (∀ msg,
     storage !! Defaults.STORAGE_KEY = Some (Defaults.Text (Malformed msg)) →
     Defaults.restore storage current = Ok current
     ∧ Defaults.load current storage = Throw (Error msg))
  ∧ (storage !! Defaults.STORAGE_KEY = Some (Defaults.Text (Json JNull)) →
     Defaults.load current storage = Throw (type_error "null" "colors")).
Proof.
  split.
  - intros msg Hstored. unfold Defaults.restore, Defaults.load.
    by rewrite Hstored.
  - intros Hstored. unfold Defaults.load. by rewrite Hstored.
Qed.

Lemma unreadable_saved_defaults_witness :
  let storage : gmap string Defaults.item :=
    {[ Defaults.STORAGE_KEY := Defaults.Text (Malformed "Unexpected token") ]} in
  let current := Page.config_json Samples.config in
  storage !! Defaults.STORAGE_KEY
  = Some (Defaults.Text (Malformed "Unexpected token"))
  ∧ Defaults.restore storage current = Ok current
  ∧ Defaults.load current storage = Throw (Error "Unexpected token").
Proof.
  intros storage current.
  assert (Hstored : storage !! Defaults.STORAGE_KEY
                    = Some (Defaults.Text (Malformed "Unexpected token")))
    by reflexivity.
  split; [exact Hstored|].
  destruct (unreadable_saved_defaults current storage) as [Hparse _].
  exact (Hparse _ Hstored).
Defined.

(** * The participant check *)

Lemma trimStart_ink s :
  Exists (λ c, Page.is_white_space c = false) s →
  Exists (λ c, Page.is_white_space c = false) (Page.trimStart s).
Proof.
  induction s as [|c s IH]; cbn [Page.trimStart]; [done|]. intros Hink.
  destruct (Page.is_white_space c) eqn:Hc; [|done].
  apply IH. apply Exists_cons in Hink as [Hink|Hink]; [congruence|done].
Qed.

Lemma reverse_ink (s : js_string) :
  Exists (λ c, Page.is_white_space c = false) s →
  Exists (λ c, Page.is_white_space c = false) (reverse s).
Proof.
  rewrite !Exists_exists. intros (c & Hc & Hink). exists c.
  by rewrite elem_of_reverse.
Qed.

(** What [trim] leaves is empty exactly when every code unit of the string
    is white space. *)
Lemma trim_blank_iff s :
  Page.trim s = [] ↔ Forall (λ c, c ∈ Page.white_space) s.
Proof.
  split.
  - intros Hblank. apply Forall_forall. intros c Hc.
    destruct (decide (c ∈ Page.white_space)) as [|Hink]; [done|].
    assert (Hleft : Exists (λ c, Page.is_white_space c = false)
                      (Page.trim s)).
    { unfold Page.trim, Page.trimEnd.
      do 2 (apply reverse_ink, trimStart_ink). apply Exists_exists.
      exists c. split; [done|]. by apply bool_decide_eq_false_2. }
    rewrite Hblank in Hleft. by apply Exists_nil in Hleft.
  - intros Hwhite. apply trim_white_space.
    eapply Forall_impl; [exact Hwhite|]. intros c Hc.
    by apply bool_decide_eq_true_2.
Qed.

(** X21. [handleStart] answers "Participant ID is required" only for a
    participant that is empty or white space: it ends with that error and
    without a request exactly when every code unit of [participant_id] is
    one of those that [trim] removes. *)
Theorem handleStart_participant_check fetch_start h w :
  Page.handleStart fetch_start h w
  = (Page.setError (Some (JStr "Participant ID is required")) h, w, [])
  ↔ Forall (λ c, c ∈ Page.white_space) (Page.participant_id (Page.config h)).
Proof.
  rewrite <- trim_blank_iff. split.
  - intros Hrun.
    destruct (decide (Page.trim (Page.participant_id (Page.config h)) = []))
      as [|Hink]; [done|exfalso].
    revert Hrun. unfold Page.handleStart.
    rewrite (bool_decide_eq_false_2 (Page.trim _ = [])) by done.
    assert (Hother : ∀ reason : string,
      units reason ≠ units "Participant ID is required" →
      (Page.setError (Some (JStr reason)) h, w, @nil text)
      ≠ (Page.setError (Some (JStr "Participant ID is required")) h, w, [])).
    { intros reason Hreason Heq. apply Hreason.
      apply (f_equal (λ r, Page.error r.1.1)) in Heq.
      cbn [Page.error Page.setError fst] in Heq. congruence. }
    destruct (Page.nonzero _); [by apply Hother|].
    destruct (bool_decide (_ ≤ _)%Qc); [by apply Hother|].
    cbv zeta. destruct (fetch_start _ w) as [[res|] w'];
      [|intros Heq; by apply (f_equal snd) in Heq].
    destruct (negb (ok res));
      [|intros Heq; by apply (f_equal snd) in Heq].
    destruct (get (Some (body res)) "error");
      intros Heq; by apply (f_equal snd) in Heq.
  - intros Hblank. unfold Page.handleStart.
    by rewrite bool_decide_eq_true_2.
Qed.

Lemma handleStart_participant_check_witness :
  ¬ Forall (λ c, c ∈ Page.white_space) (Page.participant_id Samples.config)
  ∧ Page.handleStart Samples.endpoint (Samples.page Samples.config)
      Samples.fresh
    ≠ (Page.setError (Some (JStr "Participant ID is required"))
         (Samples.page Samples.config),
       Samples.fresh, []).
Proof.
  assert (Hink : ¬ Forall (λ c, c ∈ Page.white_space)
                     (Page.participant_id Samples.config)).
  { apply (bool_decide_unpack _). vm_compute. exact I. }
  split; [exact Hink|]. intros Hrun. apply Hink.
  apply (handleStart_participant_check Samples.endpoint
           (Samples.page Samples.config) Samples.fresh).
  exact Hrun.
Defined.
